(** * SlayerGame server: player records, training and achievements

    A shallow embedding of the Express server of SlayerGame and of the
    training panel of its client.  The repository carries the server twice,
    once over PostgreSQL ([pg]) and once over SQLite ([better-sqlite3]); the
    request handlers of the two are the same statement for statement, but
    for the wording of a refused login; the engines differ where a
    statement overflows a column, where a refused INSERT has drawn from a
    sequence, and in the order of the rows of a SELECT.  One model serves
    both, with the engine as a parameter.

    - A table with a primary key that is only looked up by key ([players])
      is a [gmap]; the tables whose row order is observable ([achievements],
      read by [SELECT *] and iterated) or that have a composite key
      ([player_achievements]) are lists, with the key constraints checked by
      the [INSERT] that the code runs.
    - SQL [INTEGER]s and the JSON numbers of a request body are [Z].
      PostgreSQL's INTEGER is 32 bits wide and a statement that leaves it
      fails; beyond that the model covers the integers that SQLite's
      INTEGER and JavaScript's numbers hold exactly, and request bodies
      whose fields have the types the client sends.
    - [CURRENT_TIMESTAMP] is the [now] argument of a handler: a request is
      served at one instant.
    - A handler returns the database it leaves behind and what the caller
      receives: a reply, or the exception that escaped the handler.  No
      handler opens a transaction, so the writes made before an exception
      stay. *)

From Stdlib Require Import ZArith String List Lia.
From stdpp Require Import gmap strings list fin_maps.

Local Open Scope Z_scope.
Local Open Scope string_scope.
Local Open Scope list_scope.

(** ** Rows *)

(** [interface User] of types.ts: the payload of the session token. *)
Module User.
Record t := mk { id : Z; username : string }.
End User.

(** A row of [users].  [password] and [discord_id] are nullable. *)
Module UserRow.
Record t := mk {
  id : Z;
  username : string;
  password : option string;
  discord_id : option string }.
End UserRow.

(** A row of [players] ([interface Player] of types.ts plus [theme_color]). *)
Module Player.
Record t := mk {
  id : Z;
  name : string;
  gender : string;
  level : Z;
  exp : Z;
  hp : Z;
  max_hp : Z;
  gold : Z;
  gems : Z;
  weapon : string;
  str : Z;
  dex : Z;
  vit : Z;
  stat_points : Z;
  last_save : Z;
  language : string;
  created_at : Z;
  theme_color : string }.

(** [UPDATE players SET last_save = CURRENT_TIMESTAMP] *)
Definition set_last_save (now : Z) (r : t) : t :=
  mk (id r) (name r) (gender r) (level r) (exp r) (hp r) (max_hp r) (gold r)
     (gems r) (weapon r) (str r) (dex r) (vit r) (stat_points r) now
     (language r) (created_at r) (theme_color r).

(** [UPDATE players SET language = $1] *)
Definition set_language (l : string) (r : t) : t :=
  mk (id r) (name r) (gender r) (level r) (exp r) (hp r) (max_hp r) (gold r)
     (gems r) (weapon r) (str r) (dex r) (vit r) (stat_points r) (last_save r)
     l (created_at r) (theme_color r).

(** [UPDATE players SET theme_color = $1] *)
Definition set_theme_color (c : string) (r : t) : t :=
  mk (id r) (name r) (gender r) (level r) (exp r) (hp r) (max_hp r) (gold r)
     (gems r) (weapon r) (str r) (dex r) (vit r) (stat_points r) (last_save r)
     (language r) (created_at r) c.

(** [UPDATE players SET name = $1] *)
Definition set_name (n : string) (r : t) : t :=
  mk (id r) n (gender r) (level r) (exp r) (hp r) (max_hp r) (gold r)
     (gems r) (weapon r) (str r) (dex r) (vit r) (stat_points r) (last_save r)
     (language r) (created_at r) (theme_color r).

(** [UPDATE players SET str = str + $1, dex = dex + $2, vit = vit + $3,
    stat_points = stat_points - $4, max_hp = $5, last_save = CURRENT_TIMESTAMP] *)
Definition set_trained (d_str d_dex d_vit spent newMaxHp now : Z) (r : t) : t :=
  mk (id r) (name r) (gender r) (level r) (exp r) (hp r) newMaxHp (gold r)
     (gems r) (weapon r) (str r + d_str) (dex r + d_dex) (vit r + d_vit)
     (stat_points r - spent) now (language r) (created_at r) (theme_color r).
End Player.

(** A row of [achievements]. *)
Module Achievement.
Record t := mk {
  id : string;
  title_en : string;
  title_th : string;
  description_en : string;
  description_th : string;
  icon : string;
  requirement_type : string;
  requirement_value : Z }.
End Achievement.

(** A row of [player_achievements]. *)
Module Unlock.
Record t := mk { player_id : Z; achievement_id : string; unlocked_at : Z }.
End Unlock.

(** ** The database *)

Record Db := mkDb {
  users : list UserRow.t;
  users_seq : Z;                        (* next value of the SERIAL / AUTOINCREMENT id *)
  players : gmap Z Player.t;
  achievements : list Achievement.t;
  player_achievements : list Unlock.t }.

Definition empty_db : Db := mkDb [] 1 ∅ [] [].

Definition with_users (us : list UserRow.t) (seq : Z) (db : Db) : Db :=
  mkDb us seq (players db) (achievements db) (player_achievements db).

Definition with_players (ps : gmap Z Player.t) (db : Db) : Db :=
  mkDb (users db) (users_seq db) ps (achievements db) (player_achievements db).

Definition with_achievements (acs : list Achievement.t) (db : Db) : Db :=
  mkDb (users db) (users_seq db) (players db) acs (player_achievements db).

Definition with_player_achievements (pas : list Unlock.t) (db : Db) : Db :=
  mkDb (users db) (users_seq db) (players db) (achievements db) pas.

(** ** The two engines *)

(** The copy of the server that runs: over [pg] or over [better-sqlite3]. *)
Inductive Variant := Postgres | SQLite.

(** Whether an integer can be a parameter for, or the new value of, an
    INTEGER column.  PostgreSQL's INTEGER is [int4]: a parameter outside it
    is refused and arithmetic that leaves it fails with "integer out of
    range".  SQLite's INTEGER holds every integer the model covers. *)
Definition fits (variant : Variant) (z : Z) : bool :=
  match variant with
  | Postgres => Z.leb (-2147483648) z && Z.leb z 2147483647
  | SQLite => true
  end.

(** ** Exceptions and replies *)

(** What a statement or an expression of a handler can throw.  The handlers
    that catch look at the text of the message only to tell a uniqueness
    violation from the rest, so the kind is what the model keeps. *)
Inductive Exn :=
| UniqueViolation (constraint : string)
| ForeignKeyViolation (constraint : string)
| OutOfRange
| TypeError.

Inductive Result (A : Type) :=
| Ok (a : A)
| Throw (e : Exn).
Arguments Ok {A} a.
Arguments Throw {A} e.

Definition bind {A B} (r : Result A) (k : A -> Result B) : Result B :=
  match r with
  | Ok a => k a
  | Throw e => Throw e
  end.

Notation "'let*' x ':=' r 'in' k" := (bind r (fun x => k))
  (at level 10, x name, r at level 100, k at level 200).

(** The JSON bodies the handlers send. *)
Inductive Body :=
| error (msg : string)                                   (* { error } *)
| success                                                (* { success: true } *)
| success_player (player : option Player.t)              (* { success: true, player } *)
| user_player (user : User.t) (player : option Player.t) (* { user, player } *)
| achievements_unlockedIds (acs : list Achievement.t) (unlockedIds : list string)
| success_newlyUnlocked (newlyUnlocked : list Achievement.t)
| text (s : string)                                      (* res.send of a plain text *)
| closing_page.                                          (* res.send of the page that closes the OAuth window *)

Inductive Response :=
| Reply (status : Z) (body : Body)
| Uncaught (e : Exn).

(** ** Statements shared by the handlers *)

Definition user_exists (db : Db) (userId : Z) : bool :=
  existsb (fun u => Z.eqb (UserRow.id u) userId) (users db).

(** [createPlayer]: one [INSERT INTO players] with the starting values; the
    columns the statement leaves out take their defaults ([last_save]
    CURRENT_TIMESTAMP, [theme_color] '#ef4444'). *)
Definition new_player (userId : Z) (name gender : string) (now : Z) : Player.t :=
  Player.mk userId name gender 1 0 100 100 500 50 "Wooden Sword" 1 1 1 5
            now "EN" now "#ef4444".

Definition createPlayer (db : Db) (userId : Z) (name : string)
    (gender : option string) (now : Z) : Result Db :=
  let gender := match gender with Some g => g | None => "Male" end in
  match players db !! userId with
  | Some _ => Throw (UniqueViolation "players_pkey")
  | None =>
      if user_exists db userId
      then Ok (with_players (<[userId := new_player userId name gender now]> (players db)) db)
      else Throw (ForeignKeyViolation "fk_user")
  end.

(** ** Handlers behind [authenticateToken] *)

(** GET /api/me *)
Definition me (db : Db) (user : User.t) (now : Z) : Db * Response :=
  match players db !! User.id user with
  | Some player => (db, Reply 200 (user_player user (Some player)))
  | None =>
      match createPlayer db (User.id user) (User.username user) None now with
      | Throw e => (db, Uncaught e)
      | Ok db1 => (db1, Reply 200 (user_player user (players db1 !! User.id user)))
      end
  end.

(** The body of POST /api/player/train. *)
Module TrainBody.
Record t := mk { str : Z; dex : Z; vit : Z; pointsSpent : Z }.
End TrainBody.

(** Whether the UPDATE of the train handler goes through for the row
    [player]: its five numeric parameters and the four values it computes
    are within the range of the columns. *)
Definition trained_fits (variant : Variant) (player : Player.t) (body : TrainBody.t)
    (newMaxHp : Z) : bool :=
  fits variant (TrainBody.str body) && fits variant (TrainBody.dex body)
  && fits variant (TrainBody.vit body) && fits variant (TrainBody.pointsSpent body)
  && fits variant newMaxHp
  && fits variant (Player.str player + TrainBody.str body)
  && fits variant (Player.dex player + TrainBody.dex body)
  && fits variant (Player.vit player + TrainBody.vit body)
  && fits variant (Player.stat_points player - TrainBody.pointsSpent body).

(** POST /api/player/train.  The UPDATE is one statement: when it fails
    nothing is written, and the handler, which has no [try], sends no
    reply. *)
Definition train (variant : Variant) (db : Db) (user : User.t) (body : TrainBody.t)
    (now : Z) : Db * Response :=
  let player := players db !! User.id user in
  match player with
  | None => (db, Reply 400 (error "Insufficient stat points"))
  | Some player =>
      if Z.ltb (Player.stat_points player) (TrainBody.pointsSpent body)
      then (db, Reply 400 (error "Insufficient stat points"))
      else
        let newMaxHp := 100 + ((Player.vit player + TrainBody.vit body) * 10) in
        if trained_fits variant player body newMaxHp
        then
          let db1 :=
            with_players
              (alter (Player.set_trained (TrainBody.str body) (TrainBody.dex body)
                        (TrainBody.vit body) (TrainBody.pointsSpent body) newMaxHp now)
                     (User.id user) (players db)) db in
          (db1, Reply 200 (success_player (players db1 !! User.id user)))
        else (db, Uncaught OutOfRange)
  end.

(** POST /api/player/save *)
Definition save (db : Db) (user : User.t) (now : Z) : Db * Response :=
  let db1 := with_players (alter (Player.set_last_save now) (User.id user) (players db)) db in
  (db1, Reply 200 (success_player (players db1 !! User.id user))).

(** JavaScript truthiness of an optional string field: [undefined] and the
    empty string are falsy; a truthy field gives its string. *)
Definition truthy (s : option string) : option string :=
  match s with
  | Some s => if String.eqb s "" then None else Some s
  | None => None
  end.

(** POST /api/player/settings *)
Definition settings (db : Db) (user : User.t) (language theme_color : option string)
    : Db * Response :=
  let db1 :=
    match truthy language with
    | Some l => with_players (alter (Player.set_language l) (User.id user) (players db)) db
    | None => db
    end in
  let db2 :=
    match truthy theme_color with
    | Some c => with_players (alter (Player.set_theme_color c) (User.id user) (players db1)) db1
    | None => db1
    end in
  (db2, Reply 200 (success_player (players db2 !! User.id user))).

(** The order of an index over a TEXT column: byte by byte. *)
Fixpoint insert_sorted (x : string) (l : list string) : list string :=
  match l with
  | [] => [x]
  | y :: l' => if String.leb x y then x :: l else y :: insert_sorted x l'
  end.

Definition sort_ids (l : list string) : list string :=
  fold_right insert_sorted [] l.

(** [unlockedResult.rows.map(u => u.achievement_id)] over
    [SELECT achievement_id FROM player_achievements WHERE player_id = $1].
    The statement has no ORDER BY.  PostgreSQL reads the table, whose rows,
    only ever inserted, lie in the order of their insertion; SQLite answers
    from the index of the primary key [(player_id, achievement_id)], in
    the order of [achievement_id]. *)
Definition unlockedIds_of (variant : Variant) (db : Db) (player_id : Z) : list string :=
  let ids :=
    map Unlock.achievement_id
        (filter (fun u => Unlock.player_id u = player_id) (player_achievements db)) in
  match variant with
  | Postgres => ids
  | SQLite => sort_ids ids
  end.

(** [Array.prototype.includes] on a list of strings *)
Definition includes (l : list string) (x : string) : bool :=
  existsb (String.eqb x) l.

(** GET /api/achievements *)
Definition get_achievements (variant : Variant) (db : Db) (user : User.t)
    : Db * Response :=
  (db, Reply 200 (achievements_unlockedIds (achievements db)
                                           (unlockedIds_of variant db (User.id user)))).

(** [INSERT INTO player_achievements (player_id, achievement_id)]: the
    composite primary key and the two foreign keys are checked;
    [unlocked_at] takes its default. *)
Definition insert_player_achievement (db : Db) (player_id : Z)
    (achievement_id : string) (now : Z) : Result Db :=
  if existsb (fun u => Z.eqb (Unlock.player_id u) player_id
                       && String.eqb (Unlock.achievement_id u) achievement_id)
             (player_achievements db)
  then Throw (UniqueViolation "player_achievements_pkey")
  else
    match players db !! player_id with
    | None => Throw (ForeignKeyViolation "fk_player")
    | Some _ =>
        if existsb (fun a => String.eqb (Achievement.id a) achievement_id) (achievements db)
        then Ok (with_player_achievements
                   (player_achievements db ++ [Unlock.mk player_id achievement_id now]) db)
        else Throw (ForeignKeyViolation "fk_achievement")
    end.

(** [ach.requirement_type === kind && player.<field> >= ach.requirement_value].
    [&&] reads the field only when the kind matches; reading a field of an
    [undefined] player throws. *)
Definition requirement (kind : string) (field : Player.t -> Z)
    (player : option Player.t) (ach : Achievement.t) : Result bool :=
  if String.eqb (Achievement.requirement_type ach) kind
  then match player with
       | Some player => Ok (Z.geb (field player) (Achievement.requirement_value ach))
       | None => Throw TypeError
       end
  else Ok false.

(** The three [if (...) isMet = true] lines, in order. *)
Definition isMet (player : option Player.t) (ach : Achievement.t) : Result bool :=
  let isMet := false in
  let* c := requirement "level" Player.level player ach in
  let isMet := if c then true else isMet in
  let* c := requirement "str" Player.str player ach in
  let isMet := if c then true else isMet in
  let* c := requirement "gold" Player.gold player ach in
  let isMet := if c then true else isMet in
  Ok isMet.

(** The loop over [achievements] of POST /api/player/check-achievements.
    [unlockedIds] was read before the loop and is not refreshed. *)
Fixpoint check_loop (player : option Player.t) (unlockedIds : list string)
    (player_id now : Z) (achs : list Achievement.t)
    (db : Db) (newlyUnlocked : list Achievement.t) : Db * Result (list Achievement.t) :=
  match achs with
  | [] => (db, Ok newlyUnlocked)
  | ach :: achs =>
      if negb (includes unlockedIds (Achievement.id ach))
      then
        match isMet player ach with
        | Throw e => (db, Throw e)
        | Ok true =>
            match insert_player_achievement db player_id (Achievement.id ach) now with
            | Throw e => (db, Throw e)
            | Ok db1 =>
                check_loop player unlockedIds player_id now achs db1 (newlyUnlocked ++ [ach])
            end
        | Ok false => check_loop player unlockedIds player_id now achs db newlyUnlocked
        end
      else check_loop player unlockedIds player_id now achs db newlyUnlocked
  end.

(** POST /api/player/check-achievements *)
Definition check_achievements (variant : Variant) (db : Db) (user : User.t) (now : Z)
    : Db * Response :=
  let player := players db !! User.id user in
  let achievements := achievements db in
  let unlockedIds := unlockedIds_of variant db (User.id user) in
  match check_loop player unlockedIds (User.id user) now achievements db [] with
  | (db1, Ok newlyUnlocked) => (db1, Reply 200 (success_newlyUnlocked newlyUnlocked))
  | (db1, Throw e) => (db1, Uncaught e)
  end.

(** ** Handlers in front of the session *)

(** What a refused [INSERT INTO users] leaves behind.  PostgreSQL's SERIAL
    draws the id from its sequence before the constraints are checked and
    does not give it back; SQLite's AUTOINCREMENT counts rows that were
    inserted. *)
Definition refused_insert_user (variant : Variant) (db : Db) : Db :=
  match variant with
  | Postgres => with_users (users db) (users_seq db + 1) db
  | SQLite => db
  end.

(** [INSERT INTO users (...) RETURNING id]: the id comes from the sequence;
    [username] and [discord_id] are UNIQUE (a NULL [discord_id] clashes with
    nothing). *)
Definition insert_user (variant : Variant) (db : Db) (username : string)
    (password discord_id : option string) : Db * Result Z :=
  let id := users_seq db in
  if existsb (fun u => Z.eqb (UserRow.id u) id) (users db)
  then (refused_insert_user variant db, Throw (UniqueViolation "users_pkey"))
  else if existsb (fun u => String.eqb (UserRow.username u) username) (users db)
  then (refused_insert_user variant db, Throw (UniqueViolation "users_username_key"))
  else if match discord_id with
          | Some d => existsb (fun u => bool_decide (UserRow.discord_id u = Some d)) (users db)
          | None => false
          end
  then (refused_insert_user variant db, Throw (UniqueViolation "users_discord_id_key"))
  else (with_users (users db ++ [UserRow.mk id username password discord_id]) (id + 1) db,
        Ok id).

(** [error.message.includes("unique") ? ... : ...] of the register handler
    (["UNIQUE"] in the SQLite variant, whose messages are upper case). *)
Definition registration_error (e : Exn) : string :=
  match e with
  | UniqueViolation _ => "Username already exists"
  | _ => "Registration failed"
  end.

(** POST /api/auth/register.  [hashedPassword] is what [bcrypt.hash]
    returned for the password of the body. *)
Definition register (variant : Variant) (db : Db) (username hashedPassword : string)
    (gender : option string) (now : Z) : Db * Response :=
  match insert_user variant db username (Some hashedPassword) None with
  | (db1, Throw e) => (db1, Reply 400 (error (registration_error e)))
  | (db1, Ok userId) =>
      match createPlayer db1 userId username gender now with
      | Throw e => (db1, Reply 400 (error (registration_error e)))
      | Ok db2 => (db2, Reply 200 success)
      end
  end.

(** GET /api/auth/discord/callback.  [discordUser] is the [(id, username)]
    that the token exchange and the profile request with Discord gave, or
    [None] when either failed. *)
Definition discord_callback (variant : Variant) (db : Db) (code : option string)
    (discordUser : option (string * string)) (now : Z) : Db * Response :=
  match truthy code with
  | None => (db, Reply 400 (text "No code provided"))
  | Some _ =>
      match discordUser with
      | None => (db, Reply 500 (text "Discord authentication failed"))
      | Some (discord_id, discord_name) =>
          match find (fun u => bool_decide (UserRow.discord_id u = Some discord_id)) (users db) with
          | Some _ => (db, Reply 200 closing_page)
          | None =>
              match insert_user variant db discord_name None (Some discord_id) with
              | (db1, Throw _) => (db1, Reply 500 (text "Discord authentication failed"))
              | (db1, Ok userId) =>
                  match createPlayer db1 userId discord_name None now with
                  | Throw _ => (db1, Reply 500 (text "Discord authentication failed"))
                  | Ok db2 => (db2, Reply 200 closing_page)
                  end
              end
          end
      end
  end.

(** ** Start-up *)

Definition initialAchievements : list Achievement.t :=
  [ Achievement.mk "lvl_5" "Novice Slayer" "นักล่าฝึกหัด"
      "Reach Level 5" "เลเวลถึง 5" "Sword" "level" 5;
    Achievement.mk "str_10" "Brute Force" "พลังทำลายล้าง"
      "Reach 10 Strength" "ความแข็งแกร่งถึง 10" "Dumbbell" "str" 10;
    Achievement.mk "gold_1000" "Gold Digger" "นักขุดทอง"
      "Collect 1,000 Gold" "สะสมทองครบ 1,000" "Coins" "gold" 1000 ].

(** [INSERT INTO achievements ... ON CONFLICT (id) DO NOTHING] *)
Definition insert_achievement (db : Db) (ach : Achievement.t) : Db :=
  if existsb (fun a => String.eqb (Achievement.id a) (Achievement.id ach)) (achievements db)
  then db
  else with_achievements (achievements db ++ [ach]) db.

(** [initDb]: the tables are created if they are missing and the three
    initial achievements are inserted. *)
Definition initDb (db : Db) : Db :=
  fold_left insert_achievement initialAchievements db.

(** ** The server *)

(** The cookie of a request as [authenticateToken] sees it. *)
Inductive Token :=
| no_token                      (* no cookie *)
| bad_token                     (* [jwt.verify] reports an error *)
| good_token (user : User.t).   (* [jwt.verify] gives the payload *)

Definition authenticateToken (token : Token) (db : Db)
    (next : User.t -> Db * Response) : Db * Response :=
  match token with
  | no_token => (db, Reply 401 (error "Unauthorized"))
  | bad_token => (db, Reply 403 (error "Forbidden"))
  | good_token user => next user
  end.

(** The requests that reach a table.  Login and logout only read [users]
    and set or clear the cookie. *)
Inductive Request :=
| Register (username hashedPassword : string) (gender : option string)
| DiscordCallback (code : option string) (discordUser : option (string * string))
| Me (token : Token)
| Train (token : Token) (body : TrainBody.t)
| Save (token : Token)
| Settings (token : Token) (language theme_color : option string)
| UpdateName (token : Token) (name : option string)
| GetAchievements (token : Token)
| CheckAchievements (token : Token).

Section Server.

Variable variant : Variant.

(** [String.prototype.trim] and [String.prototype.length] (which counts
    UTF-16 code units) are those of the JavaScript engine. *)
Variable trim : string -> string.
Variable length : string -> Z.

(** POST /api/player/update-name *)
Definition update_name (db : Db) (user : User.t) (name : option string)
    : Db * Response :=
  match truthy name with
  | None => (db, Reply 400 (error "Name must be at least 2 characters long"))
  | Some name =>
      if Z.ltb (length (trim name)) 2
      then (db, Reply 400 (error "Name must be at least 2 characters long"))
      else
        let db1 := with_players (alter (Player.set_name (trim name)) (User.id user) (players db)) db in
        (db1, Reply 200 (success_player (players db1 !! User.id user)))
  end.

(** One request, served at [now]. *)
Definition handle (db : Db) (now : Z) (req : Request) : Db * Response :=
  match req with
  | Register username hashedPassword gender =>
      register variant db username hashedPassword gender now
  | DiscordCallback code discordUser => discord_callback variant db code discordUser now
  | Me token => authenticateToken token db (fun user => me db user now)
  | Train token body =>
      authenticateToken token db (fun user => train variant db user body now)
  | Save token => authenticateToken token db (fun user => save db user now)
  | Settings token language theme_color =>
      authenticateToken token db (fun user => settings db user language theme_color)
  | UpdateName token name => authenticateToken token db (fun user => update_name db user name)
  | GetAchievements token =>
      authenticateToken token db (fun user => get_achievements variant db user)
  | CheckAchievements token =>
      authenticateToken token db (fun user => check_achievements variant db user now)
  end.

(** A run of the server: the requests are served one after the other, each
    at its own instant. *)
Fixpoint serve (db : Db) (reqs : list (Z * Request)) : Db :=
  match reqs with
  | [] => db
  | (now, req) :: reqs => serve (fst (handle db now req)) reqs
  end.

End Server.

(** [startServer] begins with [initDb] on whatever database it finds; a
    fresh deployment finds none. *)
Definition started : Db := initDb empty_db.

(** ** What the spec calls a satisfied requirement *)

(** The spec's rule for one catalog entry: the kind is one of the three
    known ones and the matching field of the player reaches the threshold. *)
Definition Satisfied (player : Player.t) (ach : Achievement.t) : Prop :=
  (Achievement.requirement_type ach = "level"
   /\ Player.level player >= Achievement.requirement_value ach)
  \/ (Achievement.requirement_type ach = "str"
      /\ Player.str player >= Achievement.requirement_value ach)
  \/ (Achievement.requirement_type ach = "gold"
      /\ Player.gold player >= Achievement.requirement_value ach).

#[global] Instance Satisfied_dec player ach : Decision (Satisfied player ach).
Proof. unfold Satisfied. apply _. Defined.

(** An entry is due for a player when it is satisfied and its id is not
    among the ids already unlocked. *)
Definition Due (unlockedIds : list string) (player : Player.t)
    (ach : Achievement.t) : Prop :=
  (Achievement.id ach ∉ unlockedIds) /\ Satisfied player ach.

#[global] Instance Due_dec unlockedIds player ach : Decision (Due unlockedIds player ach).
Proof. unfold Due. apply _. Defined.

(** The spec's unlock record: the table pairs the player with the
    achievement. *)
Definition Unlocked (db : Db) (player_id : Z) (achievement_id : string) : Prop :=
  Exists (fun u => Unlock.player_id u = player_id
                   /\ Unlock.achievement_id u = achievement_id)
         (player_achievements db).

#[global] Instance Unlocked_dec db player_id achievement_id :
  Decision (Unlocked db player_id achievement_id).
Proof. unfold Unlocked. apply _. Defined.

(** A train request as the contract of the spec has it: no delta is negative. *)
Definition nonneg_deltas (req : Request) : Prop :=
  match req with
  | Train _ body =>
      0 <= TrainBody.str body /\ 0 <= TrainBody.dex body /\ 0 <= TrainBody.vit body
  | _ => True
  end.

(** The reading of C7 that the code does not meet: a train request for a
    missing record and one for a record short of points are answered
    differently. *)
Definition train_failures_told_apart (variant : Variant) : Prop :=
  forall (db db' : Db) (user : User.t) (body : TrainBody.t) (now : Z) (player : Player.t),
    players db !! User.id user = None ->
    players db' !! User.id user = Some player ->
    Player.stat_points player < TrainBody.pointsSpent body ->
    snd (train variant db user body now) <> snd (train variant db' user body now).

(** The reading of C1 that the code does not meet: every train request
    that the points cover succeeds. *)
Definition covered_train_always_succeeds (variant : Variant) : Prop :=
  forall (db : Db) (user : User.t) (body : TrainBody.t) (now : Z) (player : Player.t),
    players db !! User.id user = Some player ->
    Player.stat_points player >= TrainBody.pointsSpent body ->
    exists db1 updated,
      train variant db user body now = (db1, Reply 200 (success_player (Some updated)))
      /\ players db1 !! User.id user = Some updated
      /\ Player.str updated = Player.str player + TrainBody.str body
      /\ Player.dex updated = Player.dex player + TrainBody.dex body
      /\ Player.vit updated = Player.vit player + TrainBody.vit body
      /\ Player.stat_points updated
         = Player.stat_points player - TrainBody.pointsSpent body.

(** The reading of C10 that the code does not meet: every negative
    [pointsSpent] is accepted and adds its absolute value to
    [stat_points]. *)
Definition negative_pointsSpent_always_accepted (variant : Variant) : Prop :=
  forall (db : Db) (user : User.t) (body : TrainBody.t) (now : Z) (player : Player.t),
    players db !! User.id user = Some player ->
    0 <= Player.stat_points player ->
    TrainBody.pointsSpent body < 0 ->
    Z.ltb (Player.stat_points player) (TrainBody.pointsSpent body) = false
    /\ exists db1 updated,
         train variant db user body now = (db1, Reply 200 (success_player (Some updated)))
         /\ players db1 !! User.id user = Some updated
         /\ Player.stat_points updated
            = Player.stat_points player + Z.abs (TrainBody.pointsSpent body)
         /\ Player.stat_points player < Player.stat_points updated.

(** What one request served at [now] can do to the row of [players] under a
    given key. *)
Inductive row_step (now : Z) (req : Request) : option Player.t -> option Player.t -> Prop :=
| row_kept row : row_step now req row row
| row_created userId name gender :
    row_step now req None (Some (new_player userId name gender now))
| row_trained token body player :
    req = Train token body ->
    TrainBody.pointsSpent body <= Player.stat_points player ->
    row_step now req (Some player)
      (Some (Player.set_trained (TrainBody.str body) (TrainBody.dex body)
               (TrainBody.vit body) (TrainBody.pointsSpent body)
               (100 + (Player.vit player + TrainBody.vit body) * 10) now player))
| row_saved player :
    row_step now req (Some player) (Some (Player.set_last_save now player))
| row_language l player :
    row_step now req (Some player) (Some (Player.set_language l player))
| row_theme_color c player :
    row_step now req (Some player) (Some (Player.set_theme_color c player))
| row_language_theme_color l c player :
    row_step now req (Some player)
      (Some (Player.set_theme_color c (Player.set_language l player)))
| row_named n player :
    row_step now req (Some player) (Some (Player.set_name n player)).

(** ** Sample data *)

(** Stand-ins for JavaScript's [trim] and [length], right for ASCII
    strings without white space at their ends. *)
Definition keep (s : string) : string := s.
Definition bytes (s : string) : Z := Z.of_nat (String.length s).

Definition alice : User.t := User.mk 1 "alice".

(** A fresh server after Alice registered at instant 10. *)
Definition alice_db : Db :=
  serve Postgres keep bytes started
    [(10, Register "alice" "$2a$10$N9qo8uLOickgx2ZMRZoMye" None)].

Definition alice_player : Player.t := new_player 1 "alice" "Male" 10.

(** A fresh server with Alice's account and no player record for it. *)
Definition account_db : Db :=
  with_users [UserRow.mk 1 "alice" (Some "$2a$10$N9qo8uLOickgx2ZMRZoMye") None] 2 started.

(** Alice later in the game: level 5, 1000 gold, strength 9. *)
Definition veteran : Player.t :=
  Player.mk 1 "alice" "Male" 5 0 100 100 1000 50 "Wooden Sword" 9 1 1 5
            10 "EN" 10 "#ef4444".

Definition veteran_db : Db := with_players {[ 1 := veteran ]} alice_db.

(** Alice with a given level and purse, otherwise as she started. *)
Definition alice_at (level gold : Z) : Player.t :=
  Player.mk 1 "alice" "Male" level 0 100 100 gold 50 "Wooden Sword" 1 1 1 5
            10 "EN" 10 "#ef4444".

(** A day of Alice: she trains twice (once beyond her points), saves,
    switches language, renames herself and has her achievements checked. *)
Definition a_day : list (Z * Request) :=
  [ (20, Train (good_token alice) (TrainBody.mk 2 1 0 3));
    (21, Train (good_token alice) (TrainBody.mk 0 0 4 4));
    (22, Save (good_token alice));
    (23, Settings (good_token alice) (Some "TH") None);
    (24, UpdateName (good_token alice) (Some "Alice the Slayer"));
    (25, CheckAchievements (good_token alice)) ].

(** ** Signing in *)

(** The two copies of the server word the refusal of a login differently. *)
Definition invalid_login (variant : Variant) : string :=
  match variant with
  | Postgres => "Invalid credentials"
  | SQLite => "Invalid username or password"
  end.

(** What POST /api/auth/login gives back: the cookie with a token for
    [user] together with [{ success: true, user }], or a refusal. *)
Inductive LoginReply :=
| signed_in (user : User.t)
| refused (status : Z) (msg : string).

Section Login.

(** [bcrypt.compare] *)
Variable compare : string -> string -> bool.

(** POST /api/auth/login: the first row of
    [SELECT * FROM users WHERE username = $1], then
    [user && user.password && await bcrypt.compare(password, user.password)]. *)
Definition login (variant : Variant) (db : Db) (username password : string)
    : LoginReply :=
  match find (fun u => String.eqb (UserRow.username u) username) (users db) with
  | Some user =>
      match truthy (UserRow.password user) with
      | Some hash =>
          if compare password hash
          then signed_in (User.mk (UserRow.id user) (UserRow.username user))
          else refused 401 (invalid_login variant)
      | None => refused 401 (invalid_login variant)
      end
  | None => refused 401 (invalid_login variant)
  end.

End Login.

(** ** The training panel of the client *)

(** [pendingStats] of [TrainingSection] *)
Module Pending.
Record t := mk { str : Z; dex : Z; vit : Z }.
End Pending.

Inductive Stat := stat_str | stat_dex | stat_vit.

(** [pendingStats[stat]] *)
Definition pending (pendingStats : Pending.t) (stat : Stat) : Z :=
  match stat with
  | stat_str => Pending.str pendingStats
  | stat_dex => Pending.dex pendingStats
  | stat_vit => Pending.vit pendingStats
  end.

(** [{ ...prev, [stat]: value }] *)
Definition set_pending (prev : Pending.t) (stat : Stat) (value : Z) : Pending.t :=
  match stat with
  | stat_str => Pending.mk value (Pending.dex prev) (Pending.vit prev)
  | stat_dex => Pending.mk (Pending.str prev) value (Pending.vit prev)
  | stat_vit => Pending.mk (Pending.str prev) (Pending.dex prev) value
  end.

Definition totalSpent (pendingStats : Pending.t) : Z :=
  Pending.str pendingStats + Pending.dex pendingStats + Pending.vit pendingStats.

Definition remaining (player : Player.t) (pendingStats : Pending.t) : Z :=
  Player.stat_points player - totalSpent pendingStats.

(** [handleAdjust], run on the state the panel was last rendered with. *)
Definition handleAdjust (player : Player.t) (pendingStats : Pending.t)
    (stat : Stat) (amount : Z) : Pending.t :=
  if Z.gtb amount 0 && Z.leb (remaining player pendingStats) 0 then pendingStats
  else if Z.ltb amount 0 && Z.leb (pending pendingStats stat) 0 then pendingStats
  else set_pending pendingStats stat (pending pendingStats stat + amount).

(** The buttons of the panel that change [pendingStats]: plus and minus of
    a row, and cancel. *)
Inductive Click :=
| plus (stat : Stat)
| minus (stat : Stat)
| cancel.

Definition click (player : Player.t) (pendingStats : Pending.t) (c : Click) : Pending.t :=
  match c with
  | plus stat => handleAdjust player pendingStats stat 1
  | minus stat => handleAdjust player pendingStats stat (-1)
  | cancel => Pending.mk 0 0 0
  end.

(** The panel after a series of clicks, starting from its initial state. *)
Definition clicked (player : Player.t) (clicks : list Click) : Pending.t :=
  fold_left (click player) clicks (Pending.mk 0 0 0).

(** [handleConfirm]: the body it posts to /api/player/train, if it posts. *)
Definition handleConfirm (pendingStats : Pending.t) : option TrainBody.t :=
  if Z.eqb (totalSpent pendingStats) 0 then None
  else Some (TrainBody.mk (Pending.str pendingStats) (Pending.dex pendingStats)
               (Pending.vit pendingStats) (totalSpent pendingStats)).

(** ** Integrity of the tables *)

(** What the constraints of the schema amount to for [users] and [players]:
    the sequence is ahead of every id given out, usernames are unique, and
    a player row belongs to an account. *)
Definition consistent (db : Db) : Prop :=
  (forall u, u ∈ users db -> UserRow.id u < users_seq db)
  /\ NoDup (map UserRow.username (users db))
  /\ (forall k, is_Some (players db !! k) -> user_exists db k = true).

(** The key of [player_achievements]. *)
Definition unlock_key (u : Unlock.t) : Z * string :=
  (Unlock.player_id u, Unlock.achievement_id u).

(** What the code keeps of [max_hp]: a record that was never trained has
    the 100 it was created with; a trained one has 100 plus ten per point
    of [vit]. *)
Definition max_hp_settled (player : Player.t) : Prop :=
  Player.max_hp player = 100 + Player.vit player * 10
  \/ (Player.max_hp player = 100 /\ Player.vit player = 1).

(** The kinds of requirement that the evaluation reads a player field for. *)
Definition known_kind (ach : Achievement.t) : Prop :=
  Achievement.requirement_type ach = "level"
  \/ Achievement.requirement_type ach = "str"
  \/ Achievement.requirement_type ach = "gold".

#[global] Instance known_kind_dec ach : Decision (known_kind ach).
Proof. unfold known_kind. apply _. Defined.

(** The requests that pass [authenticateToken] first, with their token. *)
Definition token_of (req : Request) : option Token :=
  match req with
  | Register _ _ _ | DiscordCallback _ _ => None
  | Me token | Train token _ | Save token | Settings token _ _
  | UpdateName token _ | GetAchievements token | CheckAchievements token => Some token
  end.

(** Bob signs in with Discord after Alice registered. *)
Definition discord_db : Db :=
  serve Postgres keep bytes alice_db
    [(11, DiscordCallback (Some "NhhvTDYsFcdgNLnnLijcl7Ku7bEEeee")
                          (Some ("80351110224678912", "bob")))].

Definition bob_row : UserRow.t := UserRow.mk 2 "bob" None (Some "80351110224678912").

(** Alice and Bob later in the game.  Bob reached level 5 first and has
    [lvl_5]; Alice has [gold_1000] and has reached level 5 since. *)
Definition bob_at_5 : Player.t :=
  Player.mk 2 "bob" "Male" 5 0 100 100 500 50 "Wooden Sword" 1 1 1 5
            11 "EN" 11 "#ef4444".

Definition rivals_db : Db :=
  with_player_achievements
    [Unlock.mk 2 "lvl_5" 15; Unlock.mk 1 "gold_1000" 16]
    (with_players (<[1 := veteran]> (<[2 := bob_at_5]> (players discord_db))) discord_db).

(** A stand-in for [bcrypt.compare]: the hash of a password is the
    password behind a fixed prefix. *)
Definition prefix_compare (password hash : string) : bool :=
  String.eqb hash ("$2a$10$" ++ password).

(** Alice registers and then has her day. *)
Definition first_day : list (Z * Request) :=
  (10, Register "alice" "$2a$10$N9qo8uLOickgx2ZMRZoMye" None) :: a_day.

Definition alice_in_the_evening : Player.t :=
  Player.mk 1 "Alice the Slayer" "Male" 1 0 100 110 500 50 "Wooden Sword" 3 2 1 2
            22 "TH" 10 "#ef4444".

(** ** Training *)

Lemma train_accepted (variant : Variant) (db : Db) (user : User.t) (body : TrainBody.t)
    (now : Z) (player : Player.t) :
  players db !! User.id user = Some player ->
  TrainBody.pointsSpent body <= Player.stat_points player ->
  trained_fits variant player body (100 + (Player.vit player + TrainBody.vit body) * 10)
  = true ->
  let updated :=
    Player.set_trained (TrainBody.str body) (TrainBody.dex body) (TrainBody.vit body)
      (TrainBody.pointsSpent body)
      (100 + (Player.vit player + TrainBody.vit body) * 10) now player in
  train variant db user body now
  = (with_players (<[User.id user := updated]> (players db)) db,
     Reply 200 (success_player (Some updated))).
Proof.
  intros Hplayer Hpoints Hfits updated. unfold train. rewrite Hplayer.
  destruct (Z.ltb_spec (Player.stat_points player) (TrainBody.pointsSpent body)) as [Hlt|_];
    [lia|].
  cbn zeta. rewrite Hfits.
  cbn [players with_players].
  rewrite lookup_alter_eq, Hplayer. cbn [fmap option_fmap option_map].
  f_equal. f_equal.
  apply map_eq. intros k. destruct (decide (User.id user = k)) as [<-|Hne].
  - by rewrite lookup_alter_eq, lookup_insert_eq, Hplayer.
  - by rewrite lookup_alter_ne, lookup_insert_ne.
Qed.

Lemma train_rejected (variant : Variant) (db : Db) (user : User.t) (body : TrainBody.t)
    (now : Z) :
  (players db !! User.id user = None
   \/ exists player, players db !! User.id user = Some player
                     /\ Player.stat_points player < TrainBody.pointsSpent body) ->
  train variant db user body now = (db, Reply 400 (error "Insufficient stat points")).
Proof.
  intros [Hnone | (player & Hplayer & Hlt)]; unfold train.
  - by rewrite Hnone.
  - rewrite Hplayer.
    destruct (Z.ltb_spec (Player.stat_points player) (TrainBody.pointsSpent body)); [done|lia].
Qed.

Lemma train_overflows (variant : Variant) (db : Db) (user : User.t) (body : TrainBody.t)
    (now : Z) (player : Player.t) :
  players db !! User.id user = Some player ->
  TrainBody.pointsSpent body <= Player.stat_points player ->
  trained_fits variant player body (100 + (Player.vit player + TrainBody.vit body) * 10)
  = false ->
  train variant db user body now = (db, Uncaught OutOfRange).
Proof.
  intros Hplayer Hpoints Hfits. unfold train. rewrite Hplayer.
  destruct (Z.ltb_spec (Player.stat_points player) (TrainBody.pointsSpent body)) as [Hlt|_];
    [lia|].
  cbn zeta. by rewrite Hfits.
Qed.

(** The three ways a train request can end. *)
Lemma train_cases (variant : Variant) (db : Db) (user : User.t) (body : TrainBody.t)
    (now : Z) :
  train variant db user body now = (db, Reply 400 (error "Insufficient stat points"))
  \/ train variant db user body now = (db, Uncaught OutOfRange)
  \/ exists player,
       players db !! User.id user = Some player
       /\ TrainBody.pointsSpent body <= Player.stat_points player
       /\ train variant db user body now
          = (with_players
               (<[User.id user :=
                    Player.set_trained (TrainBody.str body) (TrainBody.dex body)
                      (TrainBody.vit body) (TrainBody.pointsSpent body)
                      (100 + (Player.vit player + TrainBody.vit body) * 10) now player]>
                  (players db)) db,
             Reply 200
               (success_player
                  (Some (Player.set_trained (TrainBody.str body) (TrainBody.dex body)
                           (TrainBody.vit body) (TrainBody.pointsSpent body)
                           (100 + (Player.vit player + TrainBody.vit body) * 10)
                           now player)))).
Proof.
  destruct (players db !! User.id user) as [player|] eqn:Hplayer.
  - destruct (Z.lt_ge_cases (Player.stat_points player) (TrainBody.pointsSpent body))
      as [Hlt|Hge].
    + left. apply train_rejected. eauto.
    + destruct (trained_fits variant player body
                  (100 + (Player.vit player + TrainBody.vit body) * 10)) eqn:Hfits.
      * right. right. exists player. split; [reflexivity|]. split; [exact Hge|].
        by apply train_accepted.
      * right. left. by eapply train_overflows.
  - left. apply train_rejected. by left.
Qed.

(** C1, as the code has it: a train request on an existing player whose
    [stat_points] cover the claimed [pointsSpent], and whose numbers and
    results are within the range of the INTEGER columns (on PostgreSQL, 32
    bits; on SQLite this asks nothing), succeeds; the record it returns,
    which is the one it stored, has [str], [dex] and [vit] raised by the
    three deltas of the body and [stat_points] lowered by [pointsSpent].
    Nothing relates [pointsSpent] to the sum of the deltas. *)
Theorem train_applies_deltas_and_spend (variant : Variant) (db : Db) (user : User.t)
    (body : TrainBody.t) (now : Z) (player : Player.t) :
  players db !! User.id user = Some player ->
  Player.stat_points player >= TrainBody.pointsSpent body ->
  trained_fits variant player body (100 + (Player.vit player + TrainBody.vit body) * 10)
  = true ->
  exists db1 updated,
    train variant db user body now = (db1, Reply 200 (success_player (Some updated)))
    /\ players db1 !! User.id user = Some updated
    /\ Player.str updated = Player.str player + TrainBody.str body
    /\ Player.dex updated = Player.dex player + TrainBody.dex body
    /\ Player.vit updated = Player.vit player + TrainBody.vit body
    /\ Player.stat_points updated = Player.stat_points player - TrainBody.pointsSpent body.
Proof.
  intros Hplayer Hpoints Hfits.
  eexists _, _. split.
  - apply train_accepted; [exact Hplayer | lia | exact Hfits].
  - cbn [players with_players]. rewrite lookup_insert_eq. repeat split; reflexivity.
Qed.

(** C2: a train request that claims more [pointsSpent] than the player has
    [stat_points] is answered with the insufficient-points error and leaves
    the database, hence the player's record with its [stat_points], [str],
    [dex], [vit] and [max_hp], as it was. *)
Theorem train_insufficient_points_unchanged (variant : Variant) (db : Db) (user : User.t)
    (body : TrainBody.t) (now : Z) (player : Player.t) :
  players db !! User.id user = Some player ->
  TrainBody.pointsSpent body > Player.stat_points player ->
  train variant db user body now = (db, Reply 400 (error "Insufficient stat points"))
  /\ players (fst (train variant db user body now)) !! User.id user = Some player.
Proof.
  intros Hplayer Hgt.
  assert (train variant db user body now
          = (db, Reply 400 (error "Insufficient stat points"))) as ->.
  { apply train_rejected. right. exists player. split; [exact Hplayer | lia]. }
  split; [reflexivity | exact Hplayer].
Qed.

(** C4: whenever train answers with success, the record in the answer is
    the record stored for the caller and its [max_hp] is [100 + vit * 10]
    for the [vit] it has after the operation. *)
Theorem train_max_hp_follows_vit (variant : Variant) (db : Db) (user : User.t)
    (body : TrainBody.t) (now : Z) (answer : Body) :
  snd (train variant db user body now) = Reply 200 answer ->
  exists updated,
    answer = success_player (Some updated)
    /\ players (fst (train variant db user body now)) !! User.id user = Some updated
    /\ Player.max_hp updated = 100 + Player.vit updated * 10.
Proof.
  destruct (train_cases variant db user body now)
    as [-> | [-> | (player & Hplayer & Hpoints & ->)]]; cbn [fst snd].
  - discriminate.
  - discriminate.
  - intros [= <-]. eexists. split; [reflexivity|].
    cbn [players with_players]. rewrite lookup_insert_eq. split; reflexivity.
Qed.

(** C7, as the code has it: a train request for an identity without a
    player record is answered with status 400 and the message
    "Insufficient stat points", which is the very answer given to a request
    that exceeds the points of an existing record; in both cases the
    database is left as it was. *)
Theorem train_missing_record_reported_as_insufficient (variant : Variant) (db db' : Db)
    (user : User.t) (body : TrainBody.t) (now : Z) (player : Player.t) :
  players db !! User.id user = None ->
  players db' !! User.id user = Some player ->
  Player.stat_points player < TrainBody.pointsSpent body ->
  train variant db user body now = (db, Reply 400 (error "Insufficient stat points"))
  /\ train variant db' user body now
     = (db', Reply 400 (error "Insufficient stat points"))
  /\ snd (train variant db user body now) = snd (train variant db' user body now).
Proof.
  intros Hnone Hplayer Hlt.
  rewrite (train_rejected variant db) by (left; exact Hnone).
  rewrite (train_rejected variant db') by (right; eauto).
  repeat split; reflexivity.
Qed.

(** C10, as the code has it: [pointsSpent] is not checked for sign.  For an
    existing player (whose [stat_points] are not negative, as in every
    database the server builds) and a negative [pointsSpent], the guard
    [player.stat_points < pointsSpent] is false; when moreover the numbers
    and results of the request are within the range of the INTEGER columns
    (on PostgreSQL, 32 bits; on SQLite this asks nothing), the request is
    accepted and [stat_points] grows by the absolute value of
    [pointsSpent]. *)
Theorem train_negative_pointsSpent_adds_points (variant : Variant) (db : Db)
    (user : User.t) (body : TrainBody.t) (now : Z) (player : Player.t) :
  players db !! User.id user = Some player ->
  0 <= Player.stat_points player ->
  TrainBody.pointsSpent body < 0 ->
  Z.ltb (Player.stat_points player) (TrainBody.pointsSpent body) = false
  /\ (trained_fits variant player body
        (100 + (Player.vit player + TrainBody.vit body) * 10) = true ->
      exists db1 updated,
        train variant db user body now = (db1, Reply 200 (success_player (Some updated)))
        /\ players db1 !! User.id user = Some updated
        /\ Player.stat_points updated
           = Player.stat_points player + Z.abs (TrainBody.pointsSpent body)
        /\ Player.stat_points player < Player.stat_points updated).
Proof.
  intros Hplayer Hnonneg Hneg. split; [apply Z.ltb_ge; lia|]. intros Hfits.
  eexists _, _. split.
  - apply train_accepted; [exact Hplayer | lia | exact Hfits].
  - cbn [players with_players]. rewrite lookup_insert_eq.
    split; [reflexivity|]. cbn [Player.set_trained Player.stat_points]. lia.
Qed.

(** X30: On PostgreSQL a train request that the points cover but whose
    numbers or results leave the 32 bits of the INTEGER columns makes the
    UPDATE fail: nothing is written and the handler, which catches nothing,
    sends no reply.  On SQLite no request ends this way. *)
Theorem train_out_of_range_writes_nothing (db : Db) (user : User.t)
    (body : TrainBody.t) (now : Z) (player : Player.t) :
  players db !! User.id user = Some player ->
  TrainBody.pointsSpent body <= Player.stat_points player ->
  (trained_fits Postgres player body (100 + (Player.vit player + TrainBody.vit body) * 10)
   = false ->
   train Postgres db user body now = (db, Uncaught OutOfRange))
  /\ snd (train SQLite db user body now) <> Uncaught OutOfRange.
Proof.
  intros Hplayer Hpoints. split.
  - intros Hfits. by eapply train_overflows.
  - rewrite (train_accepted SQLite db user body now player Hplayer Hpoints);
      [discriminate | reflexivity].
Qed.

(** ** Saving *)

(** C9: a save call changes no table but [players], and in [players] no
    column but [last_save]: every record has the same [id], [name],
    [gender], [level], [exp], [hp], [max_hp], [gold], [gems], [weapon],
    [str], [dex], [vit], [stat_points], [language], [created_at] and
    [theme_color] before and after the call, and no record appears or
    disappears. *)
Theorem save_changes_last_save_only (db : Db) (user : User.t) (now : Z) :
  let db1 := fst (save db user now) in
  users db1 = users db
  /\ achievements db1 = achievements db
  /\ player_achievements db1 = player_achievements db
  /\ forall k : Z,
       match players db !! k with
       | None => players db1 !! k = None
       | Some before =>
           exists after,
             players db1 !! k = Some after
             /\ Player.id after = Player.id before
             /\ Player.name after = Player.name before
             /\ Player.gender after = Player.gender before
             /\ Player.level after = Player.level before
             /\ Player.exp after = Player.exp before
             /\ Player.hp after = Player.hp before
             /\ Player.max_hp after = Player.max_hp before
             /\ Player.gold after = Player.gold before
             /\ Player.gems after = Player.gems before
             /\ Player.weapon after = Player.weapon before
             /\ Player.str after = Player.str before
             /\ Player.dex after = Player.dex before
             /\ Player.vit after = Player.vit before
             /\ Player.stat_points after = Player.stat_points before
             /\ Player.language after = Player.language before
             /\ Player.created_at after = Player.created_at before
             /\ Player.theme_color after = Player.theme_color before
       end.
Proof.
  cbn [save fst users achievements player_achievements players with_players].
  repeat split. intros k.
  rewrite lookup_alter. destruct (decide (User.id user = k)) as [<-|Hne].
  - destruct (players db !! User.id user) as [before|]; [|reflexivity].
    eexists. split; [reflexivity|]. repeat split.
  - destruct (players db !! k) as [before|]; [|reflexivity].
    eexists. split; [reflexivity|]. repeat split.
Qed.

(** ** First access *)

Lemma createPlayer_fresh (db : Db) (userId : Z) (name : string)
    (gender : option string) (now : Z) :
  players db !! userId = None ->
  user_exists db userId = true ->
  createPlayer db userId name gender now
  = Ok (with_players
          (<[userId := new_player userId name
                         (match gender with Some g => g | None => "Male" end) now]>
             (players db)) db).
Proof. intros Hnone Huser. unfold createPlayer. by rewrite Hnone, Huser. Qed.

(** C8: for an identity (an account of [users]) without a player record,
    fetch-self stores one record, with level 1, exp 0, hp 100, max_hp 100,
    gold 500, gems 50, weapon 'Wooden Sword', str 1, dex 1, vit 1 and
    stat_points 5, and answers with it; the next fetch-self, whenever it
    comes, answers with the same record and stores nothing. *)
Theorem me_creates_default_record_once (db : Db) (user : User.t) (now : Z) :
  players db !! User.id user = None ->
  user_exists db (User.id user) = true ->
  exists db1 created,
    me db user now = (db1, Reply 200 (user_player user (Some created)))
    /\ players db1 = <[User.id user := created]> (players db)
    /\ size (players db1) = S (size (players db))
    /\ (Player.level created = 1 /\ Player.exp created = 0
        /\ Player.hp created = 100 /\ Player.max_hp created = 100
        /\ Player.gold created = 500 /\ Player.gems created = 50
        /\ Player.weapon created = "Wooden Sword"
        /\ Player.str created = 1 /\ Player.dex created = 1 /\ Player.vit created = 1
        /\ Player.stat_points created = 5)
    /\ forall later : Z,
         me db1 user later = (db1, Reply 200 (user_player user (Some created))).
Proof.
  intros Hnone Huser.
  eexists _, (new_player (User.id user) (User.username user) "Male" now).
  split; [|split; [|split; [|split]]].
  - unfold me. rewrite Hnone, (createPlayer_fresh _ _ _ None now Hnone Huser).
    cbn [players with_players]. by rewrite lookup_insert_eq.
  - reflexivity.
  - cbn [players with_players]. by apply map_size_insert_None.
  - repeat split.
  - intros later. unfold me. cbn [players with_players].
    by rewrite lookup_insert_eq.
Qed.

(** ** Achievement evaluation *)

Lemma includes_elem_of (l : list string) (x : string) :
  includes l x = true <-> x ∈ l.
Proof.
  unfold includes. rewrite existsb_exists. split.
  - intros (y & Hin & Heq). apply String.eqb_eq in Heq. subst y.
    by apply list_elem_of_In.
  - intros Hin. exists x. split; [by apply list_elem_of_In | apply String.eqb_refl].
Qed.

Lemma existsb_false {A} (f : A -> bool) (l : list A) :
  (forall x, x ∈ l -> f x = false) -> existsb f l = false.
Proof.
  intros Hall. apply not_true_iff_false. rewrite existsb_exists.
  intros (x & Hin & Hfx). apply list_elem_of_In in Hin.
  rewrite (Hall x Hin) in Hfx. discriminate.
Qed.

(** With a player at hand the three tests of the code never throw and
    decide the rule of the spec. *)
Lemma isMet_Satisfied (player : Player.t) (ach : Achievement.t) :
  isMet (Some player) ach = Ok (bool_decide (Satisfied player ach)).
Proof.
  unfold isMet, requirement, Satisfied.
  destruct ach as [id ten tth den dth icon kind value]. cbn.
  destruct (String.eqb_spec kind "level") as [->|Hlevel]; cbn.
  - destruct (Z.geb_spec (Player.level player) value) as [Hge|Hlt]; cbn.
    + rewrite bool_decide_eq_true_2; [reflexivity | left; split; [reflexivity | lia]].
    + rewrite bool_decide_eq_false_2; [reflexivity|].
      intros [[_ ?]|[[? _]|[? _]]]; [lia | discriminate | discriminate].
  - destruct (String.eqb_spec kind "str") as [->|Hstr]; cbn.
    + destruct (Z.geb_spec (Player.str player) value) as [Hge|Hlt]; cbn.
      * rewrite bool_decide_eq_true_2; [reflexivity | right; left; split; [reflexivity | lia]].
      * rewrite bool_decide_eq_false_2; [reflexivity|].
        intros [[? _]|[[_ ?]|[? _]]]; [discriminate | lia | discriminate].
    + destruct (String.eqb_spec kind "gold") as [->|Hgold]; cbn.
      * destruct (Z.geb_spec (Player.gold player) value) as [Hge|Hlt]; cbn.
        -- rewrite bool_decide_eq_true_2;
             [reflexivity | right; right; split; [reflexivity | lia]].
        -- rewrite bool_decide_eq_false_2; [reflexivity|].
           intros [[? _]|[[? _]|[_ ?]]]; [discriminate | discriminate | lia].
      * rewrite bool_decide_eq_false_2; [reflexivity|].
        intros [[? _]|[[? _]|[? _]]]; contradiction.
Qed.

Lemma insert_player_achievement_fresh (db : Db) (player_id : Z)
    (achievement_id : string) (now : Z) :
  (forall u, u ∈ player_achievements db ->
     ~ (Unlock.player_id u = player_id /\ Unlock.achievement_id u = achievement_id)) ->
  is_Some (players db !! player_id) ->
  (exists ach, ach ∈ achievements db /\ Achievement.id ach = achievement_id) ->
  insert_player_achievement db player_id achievement_id now
  = Ok (with_player_achievements
          (player_achievements db ++ [Unlock.mk player_id achievement_id now]) db).
Proof.
  intros Hfresh [player Hplayer] (ach & Hach & Hid). unfold insert_player_achievement.
  rewrite existsb_false.
  - rewrite Hplayer.
    assert (existsb (fun a => String.eqb (Achievement.id a) achievement_id)
                    (achievements db) = true) as ->; [|reflexivity].
    apply existsb_exists. exists ach. split; [by apply list_elem_of_In|].
    by apply String.eqb_eq.
  - intros u Hu. apply not_true_iff_false. intros Hboth.
    apply andb_true_iff in Hboth as [H1 H2].
    apply Z.eqb_eq in H1. apply String.eqb_eq in H2. by apply (Hfresh u Hu).
Qed.

(** The list of unlock records grows by one record per due entry, and the
    loop hands back the due entries in the order of the list it walked. *)
Lemma check_loop_due (player : Player.t) (unlockedIds : list string)
    (player_id now : Z) (achs : list Achievement.t) :
  forall (db : Db) (newlyUnlocked : list Achievement.t),
    is_Some (players db !! player_id) ->
    NoDup (map Achievement.id achs) ->
    (forall ach, ach ∈ achs -> ach ∈ achievements db) ->
    (forall ach u, ach ∈ achs -> Achievement.id ach ∉ unlockedIds ->
       u ∈ player_achievements db ->
       ~ (Unlock.player_id u = player_id /\ Unlock.achievement_id u = Achievement.id ach)) ->
    check_loop (Some player) unlockedIds player_id now achs db newlyUnlocked
    = (with_player_achievements
         (player_achievements db
          ++ map (fun ach => Unlock.mk player_id (Achievement.id ach) now)
                 (filter (Due unlockedIds player) achs)) db,
       Ok (newlyUnlocked ++ filter (Due unlockedIds player) achs)).
Proof.
  induction achs as [|ach achs IH]; intros db newlyUnlocked Hplayer Hnodup Hcat Hfresh.
  - cbn. rewrite !app_nil_r. by destruct db.
  - cbn [check_loop]. cbn [map] in Hnodup. apply NoDup_cons in Hnodup as [Hhead Hnodup].
    destruct (includes unlockedIds (Achievement.id ach)) eqn:Hinc; cbn [negb].
    + apply includes_elem_of in Hinc.
      rewrite filter_cons_False by (intros [Hnot _]; contradiction).
      apply IH; [done | done | |].
      * intros a Ha. apply Hcat. by right.
      * intros a u Ha. apply Hfresh. by right.
    + assert (Achievement.id ach ∉ unlockedIds) as Hnot.
      { intros Hin. apply includes_elem_of in Hin. congruence. }
      rewrite isMet_Satisfied.
      destruct (decide (Satisfied player ach)) as [Hsat|Hunsat].
      * rewrite bool_decide_eq_true_2 by done.
        rewrite filter_cons_True by (split; done).
        rewrite insert_player_achievement_fresh.
        -- rewrite IH.
           ++ cbn [player_achievements with_player_achievements map].
              unfold with_player_achievements. cbn.
              by rewrite <- !app_assoc.
           ++ done.
           ++ done.
           ++ intros a Ha. cbn. apply Hcat. by right.
           ++ intros a u Ha Hafresh Hu [Hu1 Hu2].
              cbn [player_achievements with_player_achievements] in Hu.
              apply elem_of_app in Hu as [Hu|Hu].
              ** apply (Hfresh a u); [by right | done | done | done].
              ** apply list_elem_of_singleton in Hu. subst u. cbn in Hu2.
                 apply Hhead. rewrite Hu2. apply list_elem_of_fmap. by exists a.
        -- intros u Hu. apply (Hfresh ach u); [by left | done | done].
        -- done.
        -- exists ach. split; [apply Hcat; by left | done].
      * rewrite bool_decide_eq_false_2 by done.
        rewrite filter_cons_False by (intros [_ Hsat]; contradiction).
        apply IH; [done | done | |].
        -- intros a Ha. apply Hcat. by right.
        -- intros a u Ha. apply Hfresh. by right.
Qed.

Lemma insert_sorted_perm (x : string) (l : list string) : insert_sorted x l ≡ₚ x :: l.
Proof.
  induction l as [|y l IH]; cbn [insert_sorted]; [reflexivity|].
  destruct (String.leb x y); [reflexivity|].
  rewrite IH. apply Permutation_swap.
Qed.

Lemma sort_ids_perm (l : list string) : sort_ids l ≡ₚ l.
Proof.
  induction l as [|x l IH]; cbn [sort_ids fold_right]; [reflexivity|].
  fold (sort_ids l). by rewrite insert_sorted_perm, IH.
Qed.

(** In whatever order the engine hands them over, the ids the handler
    reads are those the table pairs with the player. *)
Lemma unlockedIds_of_Unlocked (variant : Variant) (db : Db) (player_id : Z)
    (achievement_id : string) :
  achievement_id ∈ unlockedIds_of variant db player_id
  <-> Unlocked db player_id achievement_id.
Proof.
  assert (achievement_id
            ∈ map Unlock.achievement_id
                (filter (fun u => Unlock.player_id u = player_id) (player_achievements db))
          <-> Unlocked db player_id achievement_id) as Hids.
  { unfold Unlocked. rewrite Exists_exists, list_elem_of_fmap. split.
    - intros (u & -> & Hu). apply list_elem_of_filter in Hu as [Hid Hu]. by exists u.
    - intros (u & Hu & Hid & Hach). exists u. split; [done|].
      by apply list_elem_of_filter. }
  unfold unlockedIds_of. destruct variant; [exact Hids|].
  by rewrite sort_ids_perm.
Qed.

Lemma check_achievements_due (variant : Variant) (db : Db) (user : User.t) (now : Z)
    (player : Player.t) :
  players db !! User.id user = Some player ->
  NoDup (map Achievement.id (achievements db)) ->
  let newlyUnlocked :=
    filter (fun ach => ~ Unlocked db (User.id user) (Achievement.id ach)
                       /\ Satisfied player ach)
           (achievements db) in
  check_achievements variant db user now
  = (with_player_achievements
       (player_achievements db
        ++ map (fun ach => Unlock.mk (User.id user) (Achievement.id ach) now) newlyUnlocked)
       db,
     Reply 200 (success_newlyUnlocked newlyUnlocked)).
Proof.
  intros Hplayer Hnodup newlyUnlocked. unfold check_achievements.
  assert (filter (Due (unlockedIds_of variant db (User.id user)) player) (achievements db)
          = newlyUnlocked) as Hdue.
  { apply list_filter_iff. intros ach. unfold Due.
    by rewrite unlockedIds_of_Unlocked. }
  rewrite Hplayer, check_loop_due, Hdue; [reflexivity | by rewrite Hplayer | done | done |].
  intros ach u _ Hnot Hu [Hu1 Hu2]. apply Hnot. apply unlockedIds_of_Unlocked.
  apply Exists_exists. exists u. by repeat split.
Qed.

(** C3: one evaluation for an existing player (over a catalog whose ids
    are distinct, as the primary key of [achievements] has them) answers
    with exactly the catalog entries that are due, in catalog order, and
    appends one unlock record for each of them, in that order, changing
    nothing else.  An entry is due when the table of unlock records does
    not pair its id with this player, whatever it pairs with other
    players, and its requirement is satisfied: kind ['level'] with
    [level >= value], kind ['str'] with [str >= value] or kind ['gold']
    with [gold >= value].  An entry of any other kind is not in the answer,
    and the answer is a reply, not an exception. *)
Theorem check_achievements_unlocks_due_entries (variant : Variant) (db : Db)
    (user : User.t) (now : Z) (player : Player.t) :
  players db !! User.id user = Some player ->
  NoDup (map Achievement.id (achievements db)) ->
  exists db1 newlyUnlocked,
    check_achievements variant db user now
    = (db1, Reply 200 (success_newlyUnlocked newlyUnlocked))
    /\ newlyUnlocked
       = filter (fun ach =>
                   ~ Unlocked db (User.id user) (Achievement.id ach)
                   /\ ((Achievement.requirement_type ach = "level"
                        /\ Player.level player >= Achievement.requirement_value ach)
                       \/ (Achievement.requirement_type ach = "str"
                           /\ Player.str player >= Achievement.requirement_value ach)
                       \/ (Achievement.requirement_type ach = "gold"
                           /\ Player.gold player >= Achievement.requirement_value ach)))
                (achievements db)
    /\ player_achievements db1
       = player_achievements db
         ++ map (fun ach => Unlock.mk (User.id user) (Achievement.id ach) now) newlyUnlocked
    /\ users db1 = users db /\ players db1 = players db
    /\ achievements db1 = achievements db
    /\ forall ach,
         Achievement.requirement_type ach <> "level" ->
         Achievement.requirement_type ach <> "str" ->
         Achievement.requirement_type ach <> "gold" ->
         ach ∉ newlyUnlocked.
Proof.
  intros Hplayer Hnodup. eexists _, _.
  split; [apply (check_achievements_due variant db user now player Hplayer Hnodup)|].
  split; [reflexivity|]. repeat split.
  intros ach Hl Hs Hg Hin. apply list_elem_of_filter in Hin as [[_ Hsat] _].
  destruct Hsat as [[? _]|[[? _]|[? _]]]; contradiction.
Qed.

Lemma filter_none {A} (P : A -> Prop) `{forall x, Decision (P x)} (l : list A) :
  (forall x, x ∈ l -> ~ P x) -> filter P l = [].
Proof.
  induction l as [|x l IH]; intros Hnone; [reflexivity|].
  rewrite filter_cons_False by (apply Hnone; by left).
  apply IH. intros y Hy. apply Hnone. by right.
Qed.

(** The ids read back after an evaluation are, up to the order in which
    the engine hands them over, the ids read before it and the ids of the
    entries it unlocked; on PostgreSQL the latter follow the former. *)
Lemma unlockedIds_of_recorded (variant : Variant) (db : Db) (player_id now : Z)
    (l : list Achievement.t) :
  let db1 :=
    with_player_achievements
      (player_achievements db
       ++ map (fun ach => Unlock.mk player_id (Achievement.id ach) now) l) db in
  unlockedIds_of variant db1 player_id
  ≡ₚ unlockedIds_of variant db player_id ++ map Achievement.id l
  /\ unlockedIds_of Postgres db1 player_id
     = unlockedIds_of Postgres db player_id ++ map Achievement.id l.
Proof.
  intros db1.
  assert (unlockedIds_of Postgres db1 player_id
          = unlockedIds_of Postgres db player_id ++ map Achievement.id l) as Hpg.
  { unfold unlockedIds_of. cbn [db1 player_achievements with_player_achievements].
    rewrite filter_app, map_app. f_equal.
    induction l as [|ach l IH]; [reflexivity|].
    cbn [map]. rewrite filter_cons_True by reflexivity. cbn [map]. by rewrite IH. }
  split; [|exact Hpg].
  destruct variant; [by rewrite Hpg|].
  unfold unlockedIds_of in *. rewrite !sort_ids_perm. by rewrite Hpg.
Qed.

(** C5: an evaluation that follows an evaluation for the same player, with
    the player record and the catalog as they were, answers with an empty
    list of newly unlocked entries and leaves the database, with its unlock
    records, as the first one left it. *)
Theorem check_achievements_idempotent (variant : Variant) (db : Db) (user : User.t)
    (now later : Z) (player : Player.t) :
  players db !! User.id user = Some player ->
  NoDup (map Achievement.id (achievements db)) ->
  let db1 := fst (check_achievements variant db user now) in
  check_achievements variant db1 user later = (db1, Reply 200 (success_newlyUnlocked [])).
Proof.
  intros Hplayer Hnodup db1. subst db1.
  rewrite (check_achievements_due variant db user now player Hplayer Hnodup). cbn [fst].
  set (first := filter _ (achievements db)).
  rewrite check_achievements_due with (player := player); [|exact Hplayer|exact Hnodup].
  cbn [achievements with_player_achievements].
  rewrite filter_none.
  - cbn [map]. rewrite app_nil_r. by destruct db.
  - intros ach Hach [Hnot Hsat]. apply Hnot. unfold Unlocked.
    cbn [player_achievements with_player_achievements]. apply Exists_app.
    destruct (decide (Unlocked db (User.id user) (Achievement.id ach))) as [Hin|Hout].
    + by left.
    + right. apply Exists_exists.
      exists (Unlock.mk (User.id user) (Achievement.id ach) now). split; [|by split].
      apply list_elem_of_fmap. exists ach. split; [reflexivity|].
      apply list_elem_of_filter. by split.
Qed.

(** ** Runs of the server *)

Lemma createPlayer_Ok (db db1 : Db) (userId : Z) (name : string)
    (gender : option string) (now : Z) :
  createPlayer db userId name gender now = Ok db1 ->
  players db !! userId = None
  /\ exists g, db1 = with_players (<[userId := new_player userId name g now]> (players db)) db.
Proof.
  unfold createPlayer. destruct (players db !! userId); [discriminate|].
  destruct (user_exists db userId); [|discriminate].
  intros [= <-]. split; [reflexivity|]. eexists. reflexivity.
Qed.

Lemma createPlayer_row (db db1 : Db) (userId : Z) (name : string)
    (gender : option string) (now : Z) (req : Request) (k : Z) :
  createPlayer db userId name gender now = Ok db1 ->
  row_step now req (players db !! k) (players db1 !! k).
Proof.
  intros Hok. apply createPlayer_Ok in Hok as (Hnone & g & ->).
  cbn [players with_players]. destruct (decide (userId = k)) as [<-|Hne].
  - rewrite lookup_insert_eq, Hnone. constructor.
  - rewrite lookup_insert_ne by done. constructor.
Qed.

Lemma insert_user_Ok (variant : Variant) (db db1 : Db) (username : string)
    (password discord_id : option string) (result : Result Z) :
  insert_user variant db username password discord_id = (db1, result) ->
  players db1 = players db /\ achievements db1 = achievements db
  /\ player_achievements db1 = player_achievements db.
Proof.
  unfold insert_user.
  repeat match goal with |- context [if ?b then _ else _] => destruct b end;
    intros [= <- <-]; by destruct variant.
Qed.

Lemma alter_row (f : Player.t -> Player.t) (userId k : Z) (m : gmap Z Player.t)
    (now : Z) (req : Request) :
  (forall player, row_step now req (Some player) (Some (f player))) ->
  row_step now req (m !! k) (alter f userId m !! k).
Proof.
  intros Hf. rewrite lookup_alter. destruct (decide (userId = k)) as [<-|Hne].
  - destruct (m !! userId); cbn; [apply Hf | constructor].
  - constructor.
Qed.

Lemma insert_player_achievement_Ok (db db1 : Db) (player_id : Z)
    (achievement_id : string) (now : Z) :
  insert_player_achievement db player_id achievement_id now = Ok db1 ->
  db1 = with_player_achievements
          (player_achievements db ++ [Unlock.mk player_id achievement_id now]) db.
Proof.
  unfold insert_player_achievement.
  destruct (existsb _ (player_achievements db)); [discriminate|].
  destruct (players db !! player_id); [|discriminate].
  destruct (existsb _ (achievements db)); [|discriminate].
  by intros [= <-].
Qed.

(** The loop writes to [player_achievements] only, whether it ends or
    throws. *)
Lemma check_loop_frame (player : option Player.t) (unlockedIds : list string)
    (player_id now : Z) (achs : list Achievement.t) :
  forall (db : Db) (newlyUnlocked : list Achievement.t),
    let db1 := fst (check_loop player unlockedIds player_id now achs db newlyUnlocked) in
    users db1 = users db /\ players db1 = players db /\ achievements db1 = achievements db.
Proof.
  induction achs as [|ach achs IH]; intros db newlyUnlocked; cbn [check_loop].
  - repeat split.
  - destruct (negb (includes unlockedIds (Achievement.id ach))); [|apply IH].
    destruct (isMet player ach) as [[|]|e]; [|apply IH|repeat split].
    destruct (insert_player_achievement db player_id (Achievement.id ach) now)
      as [db1|e] eqn:Hinsert; [|repeat split].
    apply insert_player_achievement_Ok in Hinsert as ->.
    specialize (IH (with_player_achievements
                      (player_achievements db
                       ++ [Unlock.mk player_id (Achievement.id ach) now]) db)
                   (newlyUnlocked ++ [ach])).
    cbn zeta in IH. exact IH.
Qed.

Section Runs.

Variable variant : Variant.
Variable trim : string -> string.
Variable length : string -> Z.

Lemma handle_row (db : Db) (now : Z) (req : Request) (k : Z) :
  row_step now req (players db !! k) (players (fst (handle variant trim length db now req)) !! k).
Proof.
  destruct req as [username hashed gender | code discordUser | token | token body
                  | token | token language theme_color | token name | token | token];
    cbn [handle].
  - unfold register.
    destruct (insert_user variant db username (Some hashed) None)
      as [db1 [userId|e]] eqn:Huser;
      apply insert_user_Ok in Huser as (Hplayers & _ & _);
      [|cbn [fst]; rewrite Hplayers; constructor].
    destruct (createPlayer db1 userId username gender now) as [db2|e] eqn:Hcreate; cbn [fst].
    + rewrite <- Hplayers. by eapply createPlayer_row.
    + rewrite Hplayers. constructor.
  - unfold discord_callback. destruct (truthy code); [|constructor].
    destruct discordUser as [[discord_id discord_name]|]; [|constructor].
    destruct (find _ (users db)); [constructor|].
    destruct (insert_user variant db discord_name None (Some discord_id))
      as [db1 [userId|e]] eqn:Huser;
      apply insert_user_Ok in Huser as (Hplayers & _ & _);
      [|cbn [fst]; rewrite Hplayers; constructor].
    destruct (createPlayer db1 userId discord_name None now) as [db2|e] eqn:Hcreate;
      cbn [fst].
    + rewrite <- Hplayers. by eapply createPlayer_row.
    + rewrite Hplayers. constructor.
  - destruct token as [| |user]; cbn [authenticateToken fst]; [constructor..|].
    unfold me. destruct (players db !! User.id user) eqn:Hplayer; [constructor|].
    destruct (createPlayer db (User.id user) (User.username user) None now)
      as [db1|e] eqn:Hcreate; cbn [fst]; [|constructor].
    by eapply createPlayer_row.
  - destruct token as [| |user]; cbn [authenticateToken fst]; [constructor..|].
    destruct (train_cases variant db user body now)
      as [-> | [-> | (player & Hplayer & Hpoints & ->)]]; cbn [fst]; [constructor..|].
    cbn [players with_players].
    destruct (decide (User.id user = k)) as [<-|Hne].
    + rewrite lookup_insert_eq, Hplayer. by eapply row_trained.
    + rewrite lookup_insert_ne by done. constructor.
  - destruct token as [| |user]; cbn [authenticateToken fst]; [constructor..|].
    cbn [save fst players with_players]. apply alter_row. constructor.
  - destruct token as [| |user]; cbn [authenticateToken fst]; [constructor..|].
    unfold settings. cbn [fst].
    destruct (truthy language) as [l|], (truthy theme_color) as [c|];
      cbn [players with_players].
    + destruct (decide (User.id user = k)) as [<-|Hne].
      * rewrite !lookup_alter_eq. destruct (players db !! User.id user); cbn; constructor.
      * rewrite !lookup_alter_ne by done. constructor.
    + apply alter_row. constructor.
    + apply alter_row. constructor.
    + constructor.
  - destruct token as [| |user]; cbn [authenticateToken fst]; [constructor..|].
    unfold update_name. destruct (truthy name) as [n|]; [|constructor].
    destruct (Z.ltb (length (trim n)) 2); [constructor|].
    cbn [fst players with_players]. apply alter_row. constructor.
  - destruct token as [| |user]; cbn [authenticateToken fst]; constructor.
  - destruct token as [| |user]; cbn [authenticateToken fst]; [constructor..|].
    unfold check_achievements.
    pose proof (check_loop_frame (players db !! User.id user)
                  (unlockedIds_of variant db (User.id user)) (User.id user) now
                  (achievements db) db []) as (_ & Hplayers & _).
    destruct (check_loop _ _ _ _ _ _ _) as [db1 [newlyUnlocked|e]];
      cbn [fst] in *; rewrite Hplayers; constructor.
Qed.

Lemma row_step_attributes (now : Z) (req : Request) (before : Player.t)
    (row : option Player.t) :
  nonneg_deltas req ->
  row_step now req (Some before) row ->
  exists after,
    row = Some after
    /\ Player.str before <= Player.str after
    /\ Player.dex before <= Player.dex after
    /\ Player.vit before <= Player.vit after.
Proof.
  intros Hdeltas Hstep.
  inversion Hstep as [ | | token body player Hreq Hpoints | | | | | ]; subst;
    eexists; (split; [reflexivity|]); cbn; try lia.
  cbn in Hdeltas. lia.
Qed.

(** C6: along every run of the server whose train requests carry no
    negative delta, a player record that exists stays, and its [str], [dex]
    and [vit] at the end of the run are at least what they were at its
    start.  The run starts from any database, so the same holds between any
    two moments of a run. *)
Theorem attributes_never_decrease (reqs : list (Z * Request)) :
  forall (db : Db) (k : Z) (before : Player.t),
    Forall (fun r => nonneg_deltas (snd r)) reqs ->
    players db !! k = Some before ->
    exists after,
      players (serve variant trim length db reqs) !! k = Some after
      /\ Player.str before <= Player.str after
      /\ Player.dex before <= Player.dex after
      /\ Player.vit before <= Player.vit after.
Proof.
  induction reqs as [|[now req] reqs IH]; intros db k before Hdeltas Hbefore.
  - exists before. cbn. split; [exact Hbefore | lia].
  - apply Forall_cons in Hdeltas as [Hreq Hdeltas]. cbn [serve].
    pose proof (handle_row db now req k) as Hstep. rewrite Hbefore in Hstep.
    destruct (row_step_attributes now req before _ Hreq Hstep)
      as (middle & Hmiddle & Hs & Hd & Hv).
    destruct (IH _ k middle Hdeltas Hmiddle) as (after & Hafter & Hs' & Hd' & Hv').
    exists after. split; [exact Hafter | lia].
Qed.

Lemma row_step_stat_points (now : Z) (req : Request) (row : option Player.t)
    (player : Player.t) :
  row_step now req row (Some player) ->
  (forall before, row = Some before -> 0 <= Player.stat_points before) ->
  0 <= Player.stat_points player.
Proof.
  intros Hstep Hinv.
  inversion Hstep as [ | | token body before Hreq Hpoints | before
                     | l before | c before | l c before | n before ]; subst.
  - by apply Hinv.
  - cbn. lia.
  - cbn. lia.
  - cbn. by apply Hinv.
  - cbn. by apply Hinv.
  - cbn. by apply Hinv.
  - cbn. by apply Hinv.
  - cbn. by apply Hinv.
Qed.

(** No request makes [stat_points] negative. *)
Lemma handle_stat_points (db : Db) (now : Z) (req : Request) :
  (forall k player, players db !! k = Some player -> 0 <= Player.stat_points player) ->
  forall k player,
    players (fst (handle variant trim length db now req)) !! k = Some player ->
    0 <= Player.stat_points player.
Proof.
  intros Hinv k player Hplayer.
  pose proof (handle_row db now req k) as Hstep. rewrite Hplayer in Hstep.
  eapply row_step_stat_points; [exact Hstep|]. intros before. apply Hinv.
Qed.

Lemma serve_stat_points (reqs : list (Z * Request)) :
  forall db : Db,
    (forall k player, players db !! k = Some player -> 0 <= Player.stat_points player) ->
    forall k player,
      players (serve variant trim length db reqs) !! k = Some player ->
      0 <= Player.stat_points player.
Proof.
  induction reqs as [|[now req] reqs IH]; intros db Hinv; cbn [serve]; [exact Hinv|].
  apply IH. by apply handle_stat_points.
Qed.

(** X28: In every database that the server builds from a fresh start, no player
    has negative [stat_points]. *)
Lemma started_stat_points (reqs : list (Z * Request)) (k : Z) (player : Player.t) :
  players (serve variant trim length started reqs) !! k = Some player ->
  0 <= Player.stat_points player.
Proof.
  apply serve_stat_points. intros k' player' Hempty.
  change (players started) with (∅ : gmap Z Player.t) in Hempty.
  by rewrite lookup_empty in Hempty.
Qed.

(** No request writes to the catalog. *)
Lemma handle_achievements (db : Db) (now : Z) (req : Request) :
  achievements (fst (handle variant trim length db now req)) = achievements db.
Proof.
  destruct req as [username hashed gender | code discordUser | token | token body
                  | token | token language theme_color | token name | token | token];
    cbn [handle]; try (destruct token as [| |user]; cbn [authenticateToken fst];
                       [reflexivity..|]).
  - unfold register.
    destruct (insert_user variant db username (Some hashed) None)
      as [db1 [userId|e]] eqn:Huser;
      apply insert_user_Ok in Huser as (_ & Hach & _); [|exact Hach].
    destruct (createPlayer db1 userId username gender now) as [db2|e] eqn:Hcreate;
      cbn [fst]; [|exact Hach].
    apply createPlayer_Ok in Hcreate as (_ & g & ->). exact Hach.
  - unfold discord_callback. destruct (truthy code); [|reflexivity].
    destruct discordUser as [[discord_id discord_name]|]; [|reflexivity].
    destruct (find _ (users db)); [reflexivity|].
    destruct (insert_user variant db discord_name None (Some discord_id))
      as [db1 [userId|e]] eqn:Huser;
      apply insert_user_Ok in Huser as (_ & Hach & _); [|exact Hach].
    destruct (createPlayer db1 userId discord_name None now) as [db2|e] eqn:Hcreate;
      cbn [fst]; [|exact Hach].
    apply createPlayer_Ok in Hcreate as (_ & g & ->). exact Hach.
  - unfold me. destruct (players db !! User.id user); [reflexivity|].
    destruct (createPlayer db (User.id user) (User.username user) None now)
      as [db1|e] eqn:Hcreate; cbn [fst]; [|reflexivity].
    by apply createPlayer_Ok in Hcreate as (_ & g & ->).
  - by destruct (train_cases variant db user body now)
      as [-> | [-> | (player & Hplayer & Hpoints & ->)]].
  - reflexivity.
  - unfold settings. by destruct (truthy language), (truthy theme_color).
  - unfold update_name. destruct (truthy name) as [n|]; [|reflexivity].
    by destruct (Z.ltb _ _).
  - reflexivity.
  - unfold check_achievements.
    pose proof (check_loop_frame (players db !! User.id user)
                  (unlockedIds_of variant db (User.id user)) (User.id user) now
                  (achievements db) db []) as (_ & _ & Hach).
    by destruct (check_loop _ _ _ _ _ _ _) as [db1 [newlyUnlocked|e]].
Qed.

(** X29: The catalog of a server started afresh is the three initial
    achievements, whose ids are distinct, for as long as it runs. *)
Lemma started_achievements (reqs : list (Z * Request)) :
  achievements (serve variant trim length started reqs) = initialAchievements
  /\ NoDup (map Achievement.id (achievements (serve variant trim length started reqs))).
Proof.
  assert (forall db, achievements (serve variant trim length db reqs) = achievements db) as Hserve.
  { induction reqs as [|[now req] reqs IH]; intros db; cbn [serve]; [reflexivity|].
    by rewrite IH, handle_achievements. }
  rewrite Hserve. split; [reflexivity|].
  apply (bool_decide_unpack _). by vm_compute.
Qed.

End Runs.

(** ** The theorems at work on sample data *)

Lemma alice_db_player : players alice_db !! 1 = Some alice_player.
Proof. by vm_compute. Qed.

Lemma train_applies_deltas_and_spend_witness :
  players alice_db !! User.id alice = Some alice_player
  /\ Player.stat_points alice_player >= TrainBody.pointsSpent (TrainBody.mk 3 0 1 2)
  /\ trained_fits Postgres alice_player (TrainBody.mk 3 0 1 2)
       (100 + (Player.vit alice_player + TrainBody.vit (TrainBody.mk 3 0 1 2)) * 10)
     = true
  /\ exists db1 updated,
       train Postgres alice_db alice (TrainBody.mk 3 0 1 2) 20
       = (db1, Reply 200 (success_player (Some updated)))
       /\ players db1 !! User.id alice = Some updated
       /\ Player.str updated = Player.str alice_player + 3
       /\ Player.dex updated = Player.dex alice_player + 0
       /\ Player.vit updated = Player.vit alice_player + 1
       /\ Player.stat_points updated = Player.stat_points alice_player - 2.
Proof.
  assert (players alice_db !! User.id alice = Some alice_player) as H1 by (by vm_compute).
  assert (Player.stat_points alice_player >= TrainBody.pointsSpent (TrainBody.mk 3 0 1 2))
    as H2 by (cbn; lia).
  assert (trained_fits Postgres alice_player (TrainBody.mk 3 0 1 2)
            (100 + (Player.vit alice_player + TrainBody.vit (TrainBody.mk 3 0 1 2)) * 10)
          = true) as H3 by (by vm_compute).
  exact (conj H1 (conj H2 (conj H3
    (train_applies_deltas_and_spend Postgres alice_db alice (TrainBody.mk 3 0 1 2) 20
       alice_player H1 H2 H3)))).
Defined.

(** C1 fails as stated: on PostgreSQL, Alice asking for 2147483647 points
    of strength at no cost is covered by her points, and the UPDATE
    overflows the column: no success, no reply. *)
Lemma covered_train_can_overflow : ~ covered_train_always_succeeds Postgres.
Proof.
  intros Halways.
  destruct (Halways alice_db alice (TrainBody.mk 2147483647 0 0 0) 20 alice_player)
    as (db1 & updated & Htrain & _).
  - by vm_compute.
  - cbn. lia.
  - rewrite (train_overflows Postgres alice_db alice (TrainBody.mk 2147483647 0 0 0) 20
               alice_player) in Htrain; [discriminate | by vm_compute | cbn; lia
                                         | by vm_compute].
Qed.

Lemma train_insufficient_points_unchanged_witness :
  players alice_db !! User.id alice = Some alice_player
  /\ TrainBody.pointsSpent (TrainBody.mk 6 0 0 6) > Player.stat_points alice_player
  /\ train Postgres alice_db alice (TrainBody.mk 6 0 0 6) 20
     = (alice_db, Reply 400 (error "Insufficient stat points"))
  /\ players (fst (train Postgres alice_db alice (TrainBody.mk 6 0 0 6) 20)) !! User.id alice
     = Some alice_player.
Proof.
  assert (players alice_db !! User.id alice = Some alice_player) as H1 by (by vm_compute).
  assert (TrainBody.pointsSpent (TrainBody.mk 6 0 0 6) > Player.stat_points alice_player)
    as H2 by (cbn; lia).
  exact (conj H1 (conj H2
    (train_insufficient_points_unchanged Postgres alice_db alice (TrainBody.mk 6 0 0 6) 20
       alice_player H1 H2))).
Defined.

Lemma train_max_hp_follows_vit_witness :
  snd (train Postgres alice_db alice (TrainBody.mk 1 1 3 5) 20)
  = Reply 200 (success_player
                 (Some (Player.set_trained 1 1 3 5 140 20 alice_player)))
  /\ exists updated,
       success_player (Some (Player.set_trained 1 1 3 5 140 20 alice_player))
       = success_player (Some updated)
       /\ players (fst (train Postgres alice_db alice (TrainBody.mk 1 1 3 5) 20))
            !! User.id alice
          = Some updated
       /\ Player.max_hp updated = 100 + Player.vit updated * 10.
Proof.
  assert (snd (train Postgres alice_db alice (TrainBody.mk 1 1 3 5) 20)
          = Reply 200 (success_player
                         (Some (Player.set_trained 1 1 3 5 140 20 alice_player))))
    as H1 by (by vm_compute).
  exact (conj H1
    (train_max_hp_follows_vit Postgres alice_db alice (TrainBody.mk 1 1 3 5) 20 _ H1)).
Defined.

(** C7 fails as stated, on either engine: Alice without a record and Alice
    six points short get the same answer. *)
Lemma train_failures_not_told_apart :
  ~ train_failures_told_apart Postgres /\ ~ train_failures_told_apart SQLite.
Proof.
  split; intros Hapart;
    apply (Hapart account_db alice_db alice (TrainBody.mk 6 0 0 6) 20 alice_player);
    solve [by vm_compute | cbn; lia].
Qed.

Lemma train_missing_record_reported_as_insufficient_witness :
  players account_db !! User.id alice = None
  /\ players alice_db !! User.id alice = Some alice_player
  /\ Player.stat_points alice_player < TrainBody.pointsSpent (TrainBody.mk 6 0 0 6)
  /\ train Postgres account_db alice (TrainBody.mk 6 0 0 6) 20
     = (account_db, Reply 400 (error "Insufficient stat points"))
  /\ train Postgres alice_db alice (TrainBody.mk 6 0 0 6) 20
     = (alice_db, Reply 400 (error "Insufficient stat points"))
  /\ snd (train Postgres account_db alice (TrainBody.mk 6 0 0 6) 20)
     = snd (train Postgres alice_db alice (TrainBody.mk 6 0 0 6) 20).
Proof.
  assert (players account_db !! User.id alice = None) as H1 by (by vm_compute).
  assert (players alice_db !! User.id alice = Some alice_player) as H2 by (by vm_compute).
  assert (Player.stat_points alice_player < TrainBody.pointsSpent (TrainBody.mk 6 0 0 6))
    as H3 by (cbn; lia).
  exact (conj H1 (conj H2 (conj H3
    (train_missing_record_reported_as_insufficient Postgres account_db alice_db alice
       (TrainBody.mk 6 0 0 6) 20 alice_player H1 H2 H3)))).
Defined.

Lemma train_negative_pointsSpent_adds_points_witness :
  players alice_db !! User.id alice = Some alice_player
  /\ 0 <= Player.stat_points alice_player
  /\ TrainBody.pointsSpent (TrainBody.mk 0 0 0 (-7)) < 0
  /\ Z.ltb (Player.stat_points alice_player) (-7) = false
  /\ trained_fits Postgres alice_player (TrainBody.mk 0 0 0 (-7))
       (100 + (Player.vit alice_player + TrainBody.vit (TrainBody.mk 0 0 0 (-7))) * 10)
     = true
  /\ exists db1 updated,
       train Postgres alice_db alice (TrainBody.mk 0 0 0 (-7)) 20
       = (db1, Reply 200 (success_player (Some updated)))
       /\ players db1 !! User.id alice = Some updated
       /\ Player.stat_points updated = Player.stat_points alice_player + Z.abs (-7)
       /\ Player.stat_points alice_player < Player.stat_points updated.
Proof.
  assert (players alice_db !! User.id alice = Some alice_player) as H1 by (by vm_compute).
  assert (0 <= Player.stat_points alice_player) as H2 by (cbn; lia).
  assert (TrainBody.pointsSpent (TrainBody.mk 0 0 0 (-7)) < 0) as H3 by (cbn; lia).
  assert (trained_fits Postgres alice_player (TrainBody.mk 0 0 0 (-7))
            (100 + (Player.vit alice_player
                    + TrainBody.vit (TrainBody.mk 0 0 0 (-7))) * 10)
          = true) as H4 by (by vm_compute).
  destruct (train_negative_pointsSpent_adds_points Postgres alice_db alice
              (TrainBody.mk 0 0 0 (-7)) 20 alice_player H1 H2 H3) as [Hguard Haccepted].
  exact (conj H1 (conj H2 (conj H3 (conj Hguard (conj H4 (Haccepted H4)))))).
Defined.

(** C10 fails as stated: on PostgreSQL, a [pointsSpent] of -2147483648
    passes the guard, and Alice's 5 points plus 2147483648 overflow the
    column: no success, no reply. *)
Lemma negative_pointsSpent_can_overflow : ~ negative_pointsSpent_always_accepted Postgres.
Proof.
  intros Halways.
  destruct (Halways alice_db alice (TrainBody.mk 0 0 0 (-2147483648)) 20 alice_player)
    as (_ & db1 & updated & Htrain & _).
  - by vm_compute.
  - cbn. lia.
  - cbn. lia.
  - rewrite (train_overflows Postgres alice_db alice (TrainBody.mk 0 0 0 (-2147483648)) 20
               alice_player) in Htrain; [discriminate | by vm_compute | cbn; lia
                                         | by vm_compute].
Qed.

Lemma me_creates_default_record_once_witness :
  players account_db !! User.id alice = None
  /\ user_exists account_db (User.id alice) = true
  /\ exists db1 created,
       me account_db alice 10 = (db1, Reply 200 (user_player alice (Some created)))
       /\ players db1 = <[User.id alice := created]> (players account_db)
       /\ size (players db1) = S (size (players account_db))
       /\ (Player.level created = 1 /\ Player.exp created = 0
           /\ Player.hp created = 100 /\ Player.max_hp created = 100
           /\ Player.gold created = 500 /\ Player.gems created = 50
           /\ Player.weapon created = "Wooden Sword"
           /\ Player.str created = 1 /\ Player.dex created = 1 /\ Player.vit created = 1
           /\ Player.stat_points created = 5)
       /\ forall later : Z,
            me db1 alice later = (db1, Reply 200 (user_player alice (Some created))).
Proof.
  assert (players account_db !! User.id alice = None) as H1 by (by vm_compute).
  assert (user_exists account_db (User.id alice) = true) as H2 by (by vm_compute).
  exact (conj H1 (conj H2 (me_creates_default_record_once account_db alice 10 H1 H2))).
Defined.

(** Alice among rivals: the table pairs [lvl_5] with Bob and [gold_1000]
    with her, so of the two entries she satisfies only [lvl_5] is due. *)
Lemma check_achievements_unlocks_due_entries_witness :
  players rivals_db !! User.id alice = Some veteran
  /\ NoDup (map Achievement.id (achievements rivals_db))
  /\ exists db1 newlyUnlocked,
       check_achievements SQLite rivals_db alice 30
       = (db1, Reply 200 (success_newlyUnlocked newlyUnlocked))
       /\ newlyUnlocked
          = filter (fun ach =>
                      ~ Unlocked rivals_db (User.id alice) (Achievement.id ach)
                      /\ ((Achievement.requirement_type ach = "level"
                           /\ Player.level veteran >= Achievement.requirement_value ach)
                          \/ (Achievement.requirement_type ach = "str"
                              /\ Player.str veteran >= Achievement.requirement_value ach)
                          \/ (Achievement.requirement_type ach = "gold"
                              /\ Player.gold veteran >= Achievement.requirement_value ach)))
                   (achievements rivals_db)
       /\ player_achievements db1
          = player_achievements rivals_db
            ++ map (fun ach => Unlock.mk (User.id alice) (Achievement.id ach) 30)
                   newlyUnlocked
       /\ users db1 = users rivals_db /\ players db1 = players rivals_db
       /\ achievements db1 = achievements rivals_db
       /\ forall ach,
            Achievement.requirement_type ach <> "level" ->
            Achievement.requirement_type ach <> "str" ->
            Achievement.requirement_type ach <> "gold" ->
            ach ∉ newlyUnlocked.
Proof.
  assert (players rivals_db !! User.id alice = Some veteran) as H1 by (by vm_compute).
  assert (NoDup (map Achievement.id (achievements rivals_db))) as H2
    by (apply (bool_decide_unpack _); by vm_compute).
  exact (conj H1 (conj H2
    (check_achievements_unlocks_due_entries SQLite rivals_db alice 30 veteran H1 H2))).
Defined.

Lemma check_achievements_idempotent_witness :
  players veteran_db !! User.id alice = Some veteran
  /\ NoDup (map Achievement.id (achievements veteran_db))
  /\ check_achievements Postgres (fst (check_achievements Postgres veteran_db alice 30))
       alice 31
     = (fst (check_achievements Postgres veteran_db alice 30),
        Reply 200 (success_newlyUnlocked [])).
Proof.
  assert (players veteran_db !! User.id alice = Some veteran) as H1 by (by vm_compute).
  assert (NoDup (map Achievement.id (achievements veteran_db))) as H2
    by (apply (bool_decide_unpack _); by vm_compute).
  exact (conj H1 (conj H2
    (check_achievements_idempotent Postgres veteran_db alice 30 31 veteran H1 H2))).
Defined.

Lemma attributes_never_decrease_witness :
  Forall (fun r => nonneg_deltas (snd r)) a_day
  /\ players alice_db !! 1 = Some alice_player
  /\ exists after,
       players (serve Postgres keep bytes alice_db a_day) !! 1 = Some after
       /\ Player.str alice_player <= Player.str after
       /\ Player.dex alice_player <= Player.dex after
       /\ Player.vit alice_player <= Player.vit after.
Proof.
  assert (Forall (fun r => nonneg_deltas (snd r)) a_day) as H1
    by (repeat constructor; cbn; lia).
  assert (players alice_db !! 1 = Some alice_player) as H2 by (by vm_compute).
  exact (conj H1 (conj H2
    (attributes_never_decrease Postgres keep bytes a_day alice_db 1 alice_player H1 H2))).
Defined.

(** The examples of the spec, run through the handler: level 5 unlocks
    [lvl_5] and level 4 does not; 1000 gold unlocks [gold_1000] and 999 gold
    does not. *)
Example level_5_unlocks_lvl_5 :
  snd (check_achievements Postgres (with_players {[ 1 := alice_at 5 500 ]} alice_db) alice 30)
  = Reply 200 (success_newlyUnlocked
                 (filter (fun ach => Achievement.id ach = "lvl_5") initialAchievements))
  /\ snd (check_achievements Postgres (with_players {[ 1 := alice_at 4 500 ]} alice_db)
            alice 30)
     = Reply 200 (success_newlyUnlocked []).
Proof. split; by vm_compute. Qed.

Example gold_1000_unlocks_gold_1000 :
  snd (check_achievements SQLite (with_players {[ 1 := alice_at 1 1000 ]} alice_db) alice 30)
  = Reply 200 (success_newlyUnlocked
                 (filter (fun ach => Achievement.id ach = "gold_1000") initialAchievements))
  /\ snd (check_achievements SQLite (with_players {[ 1 := alice_at 1 999 ]} alice_db)
            alice 30)
     = Reply 200 (success_newlyUnlocked []).
Proof. split; by vm_compute. Qed.

Example veteran_unlocks_two :
  snd (check_achievements Postgres veteran_db alice 30)
  = Reply 200 (success_newlyUnlocked
                 (filter (fun ach => Achievement.id ach <> "str_10") initialAchievements)).
Proof. by vm_compute. Qed.

(** Among rivals Alice unlocks [lvl_5] although Bob has it, and not
    [gold_1000], which she has; afterwards the list shows her ids in the
    order of the engine. *)
Example veteran_among_rivals :
  snd (check_achievements Postgres rivals_db alice 30)
  = Reply 200 (success_newlyUnlocked
                 (filter (fun ach => Achievement.id ach = "lvl_5") initialAchievements))
  /\ unlockedIds_of Postgres (fst (check_achievements Postgres rivals_db alice 30)) 1
     = ["gold_1000"; "lvl_5"]
  /\ unlockedIds_of SQLite
       (fst (check_achievements SQLite veteran_db alice 30)) 1
     = ["gold_1000"; "lvl_5"]
  /\ unlockedIds_of Postgres
       (fst (check_achievements Postgres veteran_db alice 30)) 1
     = ["lvl_5"; "gold_1000"].
Proof. repeat split; by vm_compute. Qed.

(** ** More about training *)

Lemma with_players_same (db : Db) : with_players (players db) db = db.
Proof. by destruct db. Qed.

Lemma alter_absent (f : Player.t -> Player.t) (k : Z) (m : gmap Z Player.t) :
  m !! k = None -> alter f k m = m.
Proof.
  intros Hnone. apply map_eq. intros j. rewrite lookup_alter.
  destruct (decide (k = j)) as [<-|]; [by rewrite Hnone | done].
Qed.

Lemma alter_present (f : Player.t -> Player.t) (k : Z) (m : gmap Z Player.t)
    (player : Player.t) :
  m !! k = Some player -> alter f k m = <[k := f player]> m.
Proof.
  intros Hsome. apply map_eq. intros j. destruct (decide (k = j)) as [<-|Hne].
  - by rewrite lookup_alter_eq, lookup_insert_eq, Hsome.
  - by rewrite lookup_alter_ne, lookup_insert_ne.
Qed.

(** X1: Training writes to the caller's row of [players] and to nothing else,
    and in that row it leaves [id], [name], [gender], [level], [exp], [hp],
    [gold], [gems], [weapon], [language], [created_at] and [theme_color]
    alone: in particular [hp] does not follow [max_hp]. *)
Theorem train_leaves_the_rest (variant : Variant) (db : Db) (user : User.t)
    (body : TrainBody.t) (now : Z) :
  let db1 := fst (train variant db user body now) in
  users db1 = users db
  /\ users_seq db1 = users_seq db
  /\ achievements db1 = achievements db
  /\ player_achievements db1 = player_achievements db
  /\ forall k : Z,
       match players db !! k with
       | None => players db1 !! k = None
       | Some before =>
           exists after,
             players db1 !! k = Some after
             /\ (k <> User.id user -> after = before)
             /\ Player.id after = Player.id before
             /\ Player.name after = Player.name before
             /\ Player.gender after = Player.gender before
             /\ Player.level after = Player.level before
             /\ Player.exp after = Player.exp before
             /\ Player.hp after = Player.hp before
             /\ Player.gold after = Player.gold before
             /\ Player.gems after = Player.gems before
             /\ Player.weapon after = Player.weapon before
             /\ Player.language after = Player.language before
             /\ Player.created_at after = Player.created_at before
             /\ Player.theme_color after = Player.theme_color before
       end.
Proof.
  assert (forall k : Z,
            match players db !! k with
            | None => players db !! k = None
            | Some before =>
                exists after,
                  players db !! k = Some after
                  /\ (k <> User.id user -> after = before)
                  /\ Player.id after = Player.id before
                  /\ Player.name after = Player.name before
                  /\ Player.gender after = Player.gender before
                  /\ Player.level after = Player.level before
                  /\ Player.exp after = Player.exp before
                  /\ Player.hp after = Player.hp before
                  /\ Player.gold after = Player.gold before
                  /\ Player.gems after = Player.gems before
                  /\ Player.weapon after = Player.weapon before
                  /\ Player.language after = Player.language before
                  /\ Player.created_at after = Player.created_at before
                  /\ Player.theme_color after = Player.theme_color before
            end) as Hsame.
  { intros k. destruct (players db !! k) as [before|] eqn:Hk; [|reflexivity].
    exists before. repeat split. }
  destruct (train_cases variant db user body now)
    as [-> | [-> | (player & Hplayer & Hpoints & ->)]].
  - cbn [fst]. repeat split. exact Hsame.
  - cbn [fst]. repeat split. exact Hsame.
  - cbn [fst users users_seq achievements player_achievements players with_players].
    repeat split. intros k. destruct (decide (User.id user = k)) as [<-|Hne].
    + rewrite Hplayer, lookup_insert_eq. eexists. split; [reflexivity|].
      repeat split. intros Hk. by destruct Hk.
    + rewrite lookup_insert_ne by done.
      destruct (players db !! k) as [before|]; [|reflexivity].
      exists before. repeat split.
Qed.

(** X2: The record that fetch-self creates has [max_hp] 100 although its [vit]
    of 1 stands for 110; the first accepted train request puts that right,
    even one that asks for nothing and spends nothing. *)
Theorem empty_train_settles_max_hp (variant : Variant) (db : Db) (user : User.t)
    (now later : Z) :
  players db !! User.id user = None ->
  user_exists db (User.id user) = true ->
  exists db1 created db2 updated,
    me db user now = (db1, Reply 200 (user_player user (Some created)))
    /\ Player.max_hp created = 100
    /\ 100 + Player.vit created * 10 = 110
    /\ train variant db1 user (TrainBody.mk 0 0 0 0) later
       = (db2, Reply 200 (success_player (Some updated)))
    /\ updated = Player.set_last_save later
                   (Player.mk (Player.id created) (Player.name created)
                      (Player.gender created) 1 0 100 110 500 50 "Wooden Sword"
                      1 1 1 5 now "EN" now "#ef4444").
Proof.
  intros Hnone Huser.
  eexists _, (new_player (User.id user) (User.username user) "Male" now), _, _.
  split; [|split; [reflexivity|split; [reflexivity|split]]].
  - unfold me. rewrite Hnone, (createPlayer_fresh _ _ _ None now Hnone Huser).
    cbn [players with_players]. by rewrite lookup_insert_eq.
  - apply train_accepted.
    + cbn [players with_players]. apply lookup_insert_eq.
    + cbn. lia.
    + by destruct variant.
  - reflexivity.
Qed.

(** ** Settings, renaming and saving *)

(** X3: A settings request stores the [language] and the [theme_color] of its
    body when they are non-empty strings, whatever they say, in the
    caller's row; a field that is missing or empty leaves its column as it
    is.  No other column, row or table changes. *)
Theorem settings_stores_what_is_given (db : Db) (user : User.t)
    (language theme_color : option string) (player : Player.t) :
  players db !! User.id user = Some player ->
  let l := default (Player.language player) (truthy language) in
  let c := default (Player.theme_color player) (truthy theme_color) in
  let updated := Player.set_theme_color c (Player.set_language l player) in
  settings db user language theme_color
  = (with_players (<[User.id user := updated]> (players db)) db,
     Reply 200 (success_player (Some updated))).
Proof.
  intros Hplayer l c updated. subst l c updated. unfold settings.
  destruct (truthy language) as [l|], (truthy theme_color) as [c|];
    cbn [default players with_players].
  - rewrite (alter_present _ _ _ _ Hplayer).
    rewrite (alter_present _ _ _ (Player.set_language l player))
      by apply lookup_insert_eq.
    rewrite insert_insert_eq, lookup_insert_eq. by destruct db.
  - rewrite (alter_present _ _ _ _ Hplayer), lookup_insert_eq.
    by destruct db, player.
  - rewrite (alter_present _ _ _ _ Hplayer), lookup_insert_eq.
    by destruct db, player.
  - rewrite Hplayer. f_equal.
    + rewrite <- (with_players_same db) at 1. f_equal.
      symmetry. apply insert_id. rewrite Hplayer. by destruct player.
    + by destruct player.
Qed.

(** X4: Saving, changing settings and renaming do not ask whether the caller
    has a player record: without one they answer success with no player
    and write nothing. *)
Theorem updates_without_a_record_succeed_empty (trim : string -> string)
    (length : string -> Z) (db : Db) (user : User.t) (now : Z)
    (language theme_color : option string) (name : string) :
  players db !! User.id user = None ->
  name <> "" -> 2 <= length (trim name) ->
  save db user now = (db, Reply 200 (success_player None))
  /\ settings db user language theme_color = (db, Reply 200 (success_player None))
  /\ update_name trim length db user (Some name) = (db, Reply 200 (success_player None)).
Proof.
  intros Hnone Hname Hlong. repeat split.
  - unfold save. rewrite (alter_absent _ _ _ Hnone), with_players_same. by rewrite Hnone.
  - unfold settings.
    destruct (truthy language), (truthy theme_color); cbn [players with_players];
      rewrite ?(alter_absent _ _ _ Hnone), ?with_players_same;
      cbn [players with_players];
      rewrite ?(alter_absent _ _ _ Hnone), ?with_players_same; by rewrite Hnone.
  - unfold update_name. cbn [truthy].
    destruct (String.eqb_spec name "") as [|_]; [done|].
    destruct (Z.ltb_spec (length (trim name)) 2); [lia|].
    rewrite (alter_absent _ _ _ Hnone), with_players_same. by rewrite Hnone.
Qed.

(** X5: A rename request whose name is missing, empty or shorter than two
    characters once trimmed is refused with status 400 and writes nothing. *)
Theorem update_name_refuses_short_names (trim : string -> string)
    (length : string -> Z) (db : Db) (user : User.t) (name : option string) :
  (name = None \/ name = Some "" \/ exists n, name = Some n /\ length (trim n) < 2) ->
  update_name trim length db user name
  = (db, Reply 400 (error "Name must be at least 2 characters long")).
Proof.
  intros [->|[->|(n & -> & Hshort)]]; [reflexivity..|].
  unfold update_name. cbn [truthy]. destruct (String.eqb n ""); [reflexivity|].
  destruct (Z.ltb_spec (length (trim n)) 2); [reflexivity|lia].
Qed.

(** X6: A rename request with a name of two characters or more once trimmed
    stores the trimmed name, not the name as sent, in the caller's row and
    changes nothing else. *)
Theorem update_name_stores_trimmed_name (trim : string -> string)
    (length : string -> Z) (db : Db) (user : User.t) (name : string)
    (player : Player.t) :
  players db !! User.id user = Some player ->
  name <> "" -> 2 <= length (trim name) ->
  update_name trim length db user (Some name)
  = (with_players (<[User.id user := Player.set_name (trim name) player]> (players db)) db,
     Reply 200 (success_player (Some (Player.set_name (trim name) player)))).
Proof.
  intros Hplayer Hname Hlong. unfold update_name. cbn [truthy].
  destruct (String.eqb_spec name "") as [|_]; [done|].
  destruct (Z.ltb_spec (length (trim name)) 2); [lia|].
  rewrite (alter_present _ _ _ _ Hplayer). cbn [players with_players].
  by rewrite lookup_insert_eq.
Qed.

(** ** The session gate *)

(** X7: A request to a handler behind [authenticateToken] that comes without a
    cookie is answered 401, one whose token does not verify 403; neither
    reaches the handler, so neither writes. *)
Theorem requests_without_session_write_nothing (variant : Variant)
    (trim : string -> string) (length : string -> Z) (db : Db) (now : Z)
    (req : Request) (token : Token) :
  token_of req = Some token ->
  match token with
  | no_token => handle variant trim length db now req = (db, Reply 401 (error "Unauthorized"))
  | bad_token => handle variant trim length db now req = (db, Reply 403 (error "Forbidden"))
  | good_token _ => True
  end.
Proof.
  destruct req; cbn [token_of]; intros [= ->]; by destruct token.
Qed.

(** ** Accounts *)

Lemma user_exists_elem_of (db : Db) (k : Z) :
  user_exists db k = true <-> exists u, u ∈ users db /\ UserRow.id u = k.
Proof.
  unfold user_exists. rewrite existsb_exists. split.
  - intros (u & Hin & Heq). exists u. split; [by apply list_elem_of_In | by apply Z.eqb_eq].
  - intros (u & Hin & Heq). exists u. split; [by apply list_elem_of_In | by apply Z.eqb_eq].
Qed.

Lemma username_taken (db : Db) (username : string) :
  existsb (fun u => String.eqb (UserRow.username u) username) (users db) = true
  <-> username ∈ map UserRow.username (users db).
Proof.
  rewrite existsb_exists. split.
  - intros (u & Hin & Heq). apply String.eqb_eq in Heq. subst username.
    apply list_elem_of_fmap. exists u. split; [reflexivity | by apply list_elem_of_In].
  - intros Hin. apply list_elem_of_fmap in Hin as (u & -> & Hin).
    exists u. split; [by apply list_elem_of_In | apply String.eqb_refl].
Qed.

Lemma insert_user_Ok_row (variant : Variant) (db db1 : Db) (username : string)
    (password discord_id : option string) (userId : Z) :
  insert_user variant db username password discord_id = (db1, Ok userId) ->
  userId = users_seq db
  /\ db1 = with_users (users db ++ [UserRow.mk userId username password discord_id])
                      (userId + 1) db
  /\ username ∉ map UserRow.username (users db).
Proof.
  unfold insert_user.
  destruct (existsb _ (users db)); [discriminate|].
  destruct (existsb (fun u => String.eqb (UserRow.username u) username) (users db))
    eqn:Htaken; [discriminate|].
  destruct (match discord_id with Some _ => _ | None => _ end); [discriminate|].
  intros [= <- <-]. repeat split.
  intros Hin. apply username_taken in Hin. congruence.
Qed.

Lemma insert_user_refused (variant : Variant) (db db1 : Db) (username : string)
    (password discord_id : option string) (e : Exn) :
  insert_user variant db username password discord_id = (db1, Throw e) ->
  db1 = refused_insert_user variant db.
Proof.
  unfold insert_user.
  repeat match goal with |- context [if ?b then _ else _] => destruct b end;
    by intros [= <-].
Qed.

Lemma insert_user_taken (variant : Variant) (db : Db) (username : string)
    (password discord_id : option string) :
  username ∈ map UserRow.username (users db) ->
  exists constraint,
    insert_user variant db username password discord_id
    = (refused_insert_user variant db, Throw (UniqueViolation constraint)).
Proof.
  intros Htaken. apply username_taken in Htaken. unfold insert_user. cbn zeta.
  destruct (existsb (fun u => Z.eqb (UserRow.id u) (users_seq db)) (users db));
    [by eexists|].
  rewrite Htaken. by eexists.
Qed.

Lemma consistent_fresh_id (db : Db) :
  consistent db ->
  existsb (fun u => Z.eqb (UserRow.id u) (users_seq db)) (users db) = false
  /\ players db !! users_seq db = None.
Proof.
  intros (Hids & _ & Haccounts).
  assert (user_exists db (users_seq db) = false) as Hnot.
  { apply not_true_iff_false. intros Hex.
    apply user_exists_elem_of in Hex as (u & Hu & Hid). apply Hids in Hu. lia. }
  split; [exact Hnot|].
  destruct (players db !! users_seq db) eqn:Hplayer; [|reflexivity].
  rewrite Haccounts in Hnot; [discriminate | by rewrite Hplayer].
Qed.

Lemma insert_user_free (variant : Variant) (db : Db) (username : string)
    (password discord_id : option string) :
  consistent db ->
  username ∉ map UserRow.username (users db) ->
  match discord_id with
  | Some d => forall u, u ∈ users db -> UserRow.discord_id u <> Some d
  | None => True
  end ->
  insert_user variant db username password discord_id
  = (with_users (users db ++ [UserRow.mk (users_seq db) username password discord_id])
                (users_seq db + 1) db,
     Ok (users_seq db)).
Proof.
  intros Hcons Hfree Hdiscord. unfold insert_user.
  destruct (consistent_fresh_id db Hcons) as [-> _].
  assert (existsb (fun u => String.eqb (UserRow.username u) username) (users db) = false)
    as ->.
  { apply not_true_iff_false. intros Htaken. by apply username_taken in Htaken. }
  destruct discord_id as [d|]; [|reflexivity].
  rewrite existsb_false; [reflexivity|].
  intros u Hu. apply bool_decide_eq_false_2. by apply Hdiscord.
Qed.

Lemma refused_insert_user_consistent (variant : Variant) (db : Db) :
  consistent db -> consistent (refused_insert_user variant db).
Proof.
  intros (Hids & Hnames & Haccounts). destruct variant; [|by repeat split].
  split; [|by split]. cbn [refused_insert_user users users_seq with_users].
  intros u Hu. apply Hids in Hu. lia.
Qed.

Lemma insert_user_consistent (variant : Variant) (db db1 : Db) (username : string)
    (password discord_id : option string) (userId : Z) :
  consistent db ->
  insert_user variant db username password discord_id = (db1, Ok userId) ->
  consistent db1 /\ user_exists db1 userId = true /\ players db1 !! userId = None.
Proof.
  intros Hcons Hok. pose proof Hcons as (Hids & Hnames & Haccounts).
  apply insert_user_Ok_row in Hok as (-> & -> & Hfree).
  split; [split; [|split]|split].
  - cbn [users users_seq with_users]. intros u Hu.
    apply elem_of_app in Hu as [Hu|Hu].
    + apply Hids in Hu. lia.
    + apply list_elem_of_singleton in Hu. subst u. cbn. lia.
  - cbn [users with_users]. rewrite map_app. apply NoDup_app. split; [done|]. split.
    + intros x Hx Hx'. apply list_elem_of_singleton in Hx'. by subst x.
    + cbn. apply NoDup_singleton.
  - cbn [players with_users]. intros k Hk. apply Haccounts in Hk.
    unfold user_exists in *. cbn [users with_users].
    rewrite existsb_app, Hk. reflexivity.
  - unfold user_exists. cbn [users with_users]. rewrite existsb_app. cbn.
    rewrite Z.eqb_refl. apply orb_true_iff. right. reflexivity.
  - cbn [players with_users]. by apply consistent_fresh_id.
Qed.

Lemma createPlayer_Ok_account (db db1 : Db) (userId : Z) (name : string)
    (gender : option string) (now : Z) :
  createPlayer db userId name gender now = Ok db1 ->
  user_exists db userId = true.
Proof.
  unfold createPlayer. destruct (players db !! userId); [discriminate|].
  by destruct (user_exists db userId).
Qed.

Lemma createPlayer_consistent (db db1 : Db) (userId : Z) (name : string)
    (gender : option string) (now : Z) :
  consistent db ->
  createPlayer db userId name gender now = Ok db1 ->
  consistent db1.
Proof.
  intros (Hids & Hnames & Haccounts) Hok.
  pose proof (createPlayer_Ok_account _ _ _ _ _ _ Hok) as Haccount.
  apply createPlayer_Ok in Hok as (_ & g & ->).
  split; [exact Hids | split; [exact Hnames|]].
  cbn [players with_players]. intros k Hk.
  destruct (decide (userId = k)) as [<-|Hne]; [exact Haccount|].
  rewrite lookup_insert_ne in Hk by done. by apply Haccounts.
Qed.

Lemma alter_consistent (f : Player.t -> Player.t) (k : Z) (db : Db) :
  consistent db -> consistent (with_players (alter f k (players db)) db).
Proof.
  intros (Hids & Hnames & Haccounts). split; [exact Hids | split; [exact Hnames|]].
  cbn [players with_players]. intros j Hj. apply Haccounts.
  rewrite lookup_alter in Hj. destruct (decide (k = j)) as [<-|]; [|done].
  by apply fmap_is_Some in Hj.
Qed.

Lemma insert_player_achievement_Ok_fresh (db db1 : Db) (player_id : Z)
    (achievement_id : string) (now : Z) :
  insert_player_achievement db player_id achievement_id now = Ok db1 ->
  (player_id, achievement_id) ∉ map unlock_key (player_achievements db).
Proof.
  unfold insert_player_achievement.
  destruct (existsb _ (player_achievements db)) eqn:Hkey; [discriminate|].
  intros _ Hin. apply list_elem_of_fmap in Hin as (u & Heq & Hu).
  apply not_true_iff_false in Hkey. apply Hkey. apply existsb_exists.
  exists u. split; [by apply list_elem_of_In|].
  unfold unlock_key in Heq. injection Heq as -> ->.
  by rewrite Z.eqb_refl, String.eqb_refl.
Qed.

(** Whether it ends or throws, the loop leaves the database as it found it
    but for rows appended to [player_achievements]; they are rows of the
    caller and their keys are new. *)
Lemma check_loop_appends (player : option Player.t) (unlockedIds : list string)
    (player_id now : Z) (achs : list Achievement.t) :
  forall (db : Db) (newlyUnlocked : list Achievement.t),
  exists rows,
    fst (check_loop player unlockedIds player_id now achs db newlyUnlocked)
    = with_player_achievements (player_achievements db ++ rows) db
    /\ Forall (fun u => Unlock.player_id u = player_id) rows
    /\ (NoDup (map unlock_key (player_achievements db)) ->
        NoDup (map unlock_key (player_achievements db ++ rows))).
Proof.
  assert (forall db : Db,
            db = with_player_achievements (player_achievements db ++ []) db) as Hnil.
  { intros db. rewrite app_nil_r. by destruct db. }
  assert (forall db : Db,
            NoDup (map unlock_key (player_achievements db)) ->
            NoDup (map unlock_key (player_achievements db ++ []))) as Hnil'.
  { intros db. by rewrite app_nil_r. }
  induction achs as [|ach achs IH]; intros db newlyUnlocked; cbn [check_loop].
  - exists []. cbn [fst]. split; [apply Hnil | split; [constructor | apply Hnil']].
  - destruct (negb (includes unlockedIds (Achievement.id ach))); [|apply IH].
    destruct (isMet player ach) as [[|]|e]; [|apply IH|].
    + destruct (insert_player_achievement db player_id (Achievement.id ach) now)
        as [db1|e] eqn:Hinsert.
      * pose proof (insert_player_achievement_Ok_fresh _ _ _ _ _ Hinsert) as Hfresh.
        apply insert_player_achievement_Ok in Hinsert as ->.
        destruct (IH (with_player_achievements
                        (player_achievements db
                         ++ [Unlock.mk player_id (Achievement.id ach) now]) db)
                     (newlyUnlocked ++ [ach])) as (rows & Heq & Hrows & Hnodup).
        exists (Unlock.mk player_id (Achievement.id ach) now :: rows).
        rewrite Heq. cbn [player_achievements with_player_achievements] in *.
        split; [|split].
        -- unfold with_player_achievements. cbn. by rewrite <- app_assoc.
        -- by constructor.
        -- intros Hold. rewrite <- app_assoc in Hnodup. apply Hnodup.
           rewrite map_app. apply NoDup_app. split; [done|]. split.
           ++ intros x Hx Hx'. cbn in Hx'. apply list_elem_of_singleton in Hx'.
              subst x. by apply Hfresh.
           ++ cbn. apply NoDup_singleton.
      * exists []. cbn [fst]. split; [apply Hnil | split; [constructor | apply Hnil']].
    + exists []. cbn [fst]. split; [apply Hnil | split; [constructor | apply Hnil']].
Qed.

Lemma with_player_achievements_consistent (rows : list Unlock.t) (db : Db) :
  consistent db -> consistent (with_player_achievements rows db).
Proof. intros Hcons. exact Hcons. Qed.

Section Integrity.

Variable variant : Variant.
Variable trim : string -> string.
Variable length : string -> Z.

Lemma handle_consistent (db : Db) (now : Z) (req : Request) :
  consistent db -> consistent (fst (handle variant trim length db now req)).
Proof.
  intros Hcons.
  destruct req as [username hashed gender | code discordUser | token | token body
                  | token | token language theme_color | token name | token | token];
    cbn [handle]; try (destruct token as [| |user]; cbn [authenticateToken fst];
                       [exact Hcons..|]).
  - unfold register.
    destruct (insert_user variant db username (Some hashed) None)
      as [db1 [userId|e]] eqn:Huser.
    2: { apply insert_user_refused in Huser as ->.
         by apply refused_insert_user_consistent. }
    apply insert_user_consistent in Huser as (Hcons1 & _ & _); [|exact Hcons].
    destruct (createPlayer db1 userId username gender now) as [db2|e] eqn:Hcreate;
      cbn [fst]; [|exact Hcons1].
    by eapply createPlayer_consistent.
  - unfold discord_callback. destruct (truthy code); [|exact Hcons].
    destruct discordUser as [[discord_id discord_name]|]; [|exact Hcons].
    destruct (find _ (users db)); [exact Hcons|].
    destruct (insert_user variant db discord_name None (Some discord_id))
      as [db1 [userId|e]] eqn:Huser.
    2: { apply insert_user_refused in Huser as ->.
         by apply refused_insert_user_consistent. }
    apply insert_user_consistent in Huser as (Hcons1 & _ & _); [|exact Hcons].
    destruct (createPlayer db1 userId discord_name None now) as [db2|e] eqn:Hcreate;
      cbn [fst]; [|exact Hcons1].
    by eapply createPlayer_consistent.
  - unfold me. destruct (players db !! User.id user); [exact Hcons|].
    destruct (createPlayer db (User.id user) (User.username user) None now)
      as [db1|e] eqn:Hcreate; cbn [fst]; [|exact Hcons].
    by eapply createPlayer_consistent.
  - unfold train. destruct (players db !! User.id user) as [player|]; [|exact Hcons].
    destruct (Z.ltb _ _); [exact Hcons|]. cbn zeta.
    destruct (trained_fits _ _ _ _); [|exact Hcons]. cbn [fst]. by apply alter_consistent.
  - cbn [save fst]. by apply alter_consistent.
  - unfold settings. cbn [fst].
    destruct (truthy language), (truthy theme_color);
      repeat apply alter_consistent; exact Hcons.
  - unfold update_name. destruct (truthy name) as [n|]; [|exact Hcons].
    destruct (Z.ltb _ _); [exact Hcons|]. cbn [fst]. by apply alter_consistent.
  - exact Hcons.
  - unfold check_achievements.
    destruct (check_loop_appends (players db !! User.id user)
                (unlockedIds_of variant db (User.id user)) (User.id user) now
                (achievements db) db []) as (rows & Heq & _).
    destruct (check_loop _ _ _ _ _ _ _) as [db1 [newlyUnlocked|e]];
      cbn [fst] in *; subst db1; exact Hcons.
Qed.

Lemma serve_consistent (reqs : list (Z * Request)) :
  forall db : Db, consistent db -> consistent (serve variant trim length db reqs).
Proof.
  induction reqs as [|[now req] reqs IH]; intros db Hcons; cbn [serve]; [exact Hcons|].
  apply IH. by apply handle_consistent.
Qed.

Lemma started_is_consistent : consistent started.
Proof.
  split; [|split].
  - intros u Hu. cbn in Hu. by apply elem_of_nil in Hu.
  - cbn. constructor.
  - intros k [player Hk]. change (players started) with (∅ : gmap Z Player.t) in Hk.
    by rewrite lookup_empty in Hk.
Qed.

(** X8: The server keeps the tables of accounts in order without the help of
    a transaction: however it is used from a fresh start, the sequence is
    ahead of every account id, no two accounts share a username, and every
    player row belongs to an account. *)
Theorem server_keeps_accounts_consistent (reqs : list (Z * Request)) :
  (forall u, u ∈ users (serve variant trim length started reqs) ->
     UserRow.id u < users_seq (serve variant trim length started reqs))
  /\ NoDup (map UserRow.username (users (serve variant trim length started reqs)))
  /\ (forall k player,
        players (serve variant trim length started reqs) !! k = Some player ->
        exists u, u ∈ users (serve variant trim length started reqs) /\ UserRow.id u = k).
Proof.
  destruct (serve_consistent reqs started started_is_consistent)
    as (Hids & Hnames & Haccounts).
  split; [exact Hids | split; [exact Hnames|]].
  intros k player Hk. apply user_exists_elem_of. apply Haccounts. by rewrite Hk.
Qed.

(** What a request can do to [users] and [player_achievements]: append. *)
Lemma handle_appends (db : Db) (now : Z) (req : Request) :
  let db1 := fst (handle variant trim length db now req) in
  users db `prefix_of` users db1
  /\ player_achievements db `prefix_of` player_achievements db1
  /\ (NoDup (map unlock_key (player_achievements db)) ->
      NoDup (map unlock_key (player_achievements db1))).
Proof.
  assert (forall db1 : Db,
            users db `prefix_of` users db1 ->
            player_achievements db1 = player_achievements db ->
            users db `prefix_of` users db1
            /\ player_achievements db `prefix_of` player_achievements db1
            /\ (NoDup (map unlock_key (player_achievements db)) ->
                NoDup (map unlock_key (player_achievements db1)))) as Hkept.
  { intros db1 Husers ->. by repeat split. }
  assert (forall db1 : Db,
            users db `prefix_of` users db1
            /\ player_achievements db1 = player_achievements db ->
            users db `prefix_of` users db1
            /\ player_achievements db `prefix_of` player_achievements db1
            /\ (NoDup (map unlock_key (player_achievements db)) ->
                NoDup (map unlock_key (player_achievements db1)))) as Hkept2.
  { intros db1 [Husers Hrows]. by apply Hkept. }
  assert (forall (db1 db2 : Db) username password discord_id result name gender,
            insert_user variant db username password discord_id = (db1, result) ->
            (exists userId, createPlayer db1 userId name gender now = Ok db2) \/ db2 = db1 ->
            users db `prefix_of` users db2
            /\ player_achievements db2 = player_achievements db) as Hnew.
  { intros db1 db2 username password discord_id result name gender Huser Hcreate.
    assert (users db `prefix_of` users db1
            /\ player_achievements db1 = player_achievements db) as [Husers Hrows].
    { destruct result as [userId|e].
      - apply insert_user_Ok_row in Huser as (_ & -> & _). split; [by eexists | reflexivity].
      - apply insert_user_refused in Huser as ->. by destruct variant. }
    destruct Hcreate as [[userId Hcreate]| ->]; [|by split].
    apply createPlayer_Ok in Hcreate as (_ & g & ->). by split. }
  destruct req as [username hashed gender | code discordUser | token | token body
                  | token | token language theme_color | token name | token | token];
    cbn [handle]; try (destruct token as [| |user]; cbn [authenticateToken fst];
                       [by apply Hkept..|]).
  - unfold register.
    destruct (insert_user variant db username (Some hashed) None)
      as [db1 [userId|e]] eqn:Huser.
    2: { cbn [fst]. apply Hkept2.
         apply (Hnew db1 db1 _ _ _ _ username gender Huser). by right. }
    destruct (createPlayer db1 userId username gender now) as [db2|e] eqn:Hcreate;
      cbn [fst]; apply Hkept2.
    + eapply Hnew; [exact Huser | left; eexists; exact Hcreate].
    + apply (Hnew db1 db1 _ _ _ _ username gender Huser). by right.
  - unfold discord_callback. destruct (truthy code); [|by apply Hkept].
    destruct discordUser as [[discord_id discord_name]|]; [|by apply Hkept].
    destruct (find _ (users db)); [by apply Hkept|].
    destruct (insert_user variant db discord_name None (Some discord_id))
      as [db1 [userId|e]] eqn:Huser.
    2: { cbn [fst]. apply Hkept2.
         apply (Hnew db1 db1 _ _ _ _ discord_name None Huser). by right. }
    destruct (createPlayer db1 userId discord_name None now) as [db2|e] eqn:Hcreate;
      cbn [fst]; apply Hkept2.
    + eapply Hnew; [exact Huser | left; eexists; exact Hcreate].
    + apply (Hnew db1 db1 _ _ _ _ discord_name None Huser). by right.
  - unfold me. destruct (players db !! User.id user); [by apply Hkept|].
    destruct (createPlayer db (User.id user) (User.username user) None now)
      as [db1|e] eqn:Hcreate; cbn [fst]; [|by apply Hkept].
    apply createPlayer_Ok in Hcreate as (_ & g & ->). by apply Hkept.
  - by destruct (train_cases variant db user body now)
      as [-> | [-> | (player & Hplayer & Hpoints & ->)]]; apply Hkept.
  - by apply Hkept.
  - unfold settings. destruct (truthy language), (truthy theme_color); by apply Hkept.
  - unfold update_name. destruct (truthy name) as [n|]; [|by apply Hkept].
    destruct (Z.ltb _ _); by apply Hkept.
  - by apply Hkept.
  - unfold check_achievements.
    destruct (check_loop_appends (players db !! User.id user)
                (unlockedIds_of variant db (User.id user)) (User.id user) now
                (achievements db) db []) as (rows & Heq & _ & Hnodup).
    destruct (check_loop _ _ _ _ _ _ _) as [db1 [newlyUnlocked|e]];
      cbn [fst] in *; subst db1; cbn [users player_achievements with_player_achievements];
      (split; [done | split; [by eexists | exact Hnodup]]).
Qed.

(** X9: Nothing the server does removes an account or an unlock record: along
    every run, the [users] and the [player_achievements] it started with
    stay where they are, in front of what was added. *)
Theorem accounts_and_unlocks_are_never_removed (reqs : list (Z * Request)) :
  forall db : Db,
    users db `prefix_of` users (serve variant trim length db reqs)
    /\ player_achievements db `prefix_of` player_achievements (serve variant trim length db reqs).
Proof.
  induction reqs as [|[now req] reqs IH]; intros db; cbn [serve]; [done|].
  destruct (handle_appends db now req) as (Husers & Hunlocks & _).
  destruct (IH (fst (handle variant trim length db now req))) as (Husers' & Hunlocks').
  split; etrans; eauto.
Qed.

(** X10: The composite key of [player_achievements] holds along every run: if
    no achievement was recorded twice for a player before, none is
    afterwards. *)
Theorem unlock_keys_stay_unique (reqs : list (Z * Request)) :
  forall db : Db,
    NoDup (map unlock_key (player_achievements db)) ->
    NoDup (map unlock_key (player_achievements (serve variant trim length db reqs))).
Proof.
  induction reqs as [|[now req] reqs IH]; intros db Hnodup; cbn [serve]; [exact Hnodup|].
  apply IH. by apply handle_appends.
Qed.

End Integrity.

(** ** Registering and signing in *)

Lemma register_fresh (variant : Variant) (db : Db) (username hashed : string)
    (gender : option string) (now : Z) :
  consistent db ->
  username ∉ map UserRow.username (users db) ->
  register variant db username hashed gender now
  = (mkDb (users db ++ [UserRow.mk (users_seq db) username (Some hashed) None])
          (users_seq db + 1)
          (<[users_seq db := new_player (users_seq db) username (default "Male" gender) now]>
             (players db))
          (achievements db) (player_achievements db),
     Reply 200 success).
Proof.
  intros Hcons Hfree. unfold register.
  pose proof (insert_user_free variant db username (Some hashed) None Hcons Hfree I)
    as Huser.
  rewrite Huser.
  apply insert_user_consistent in Huser as (_ & Hexists & Hnone); [|exact Hcons].
  rewrite (createPlayer_fresh _ _ _ gender now Hnone Hexists).
  by destruct gender.
Qed.

(** X11: Registering a username that an account already has is refused with
    "Username already exists" and writes no row: the tables are as they
    were.  On PostgreSQL the refused INSERT has drawn a value from the
    sequence of ids, which is not given back; on SQLite the whole database
    is as it was. *)
Theorem register_refuses_taken_username (variant : Variant) (db : Db)
    (username hashed : string) (gender : option string) (now : Z) :
  username ∈ map UserRow.username (users db) ->
  register variant db username hashed gender now
  = (match variant with
     | Postgres =>
         mkDb (users db) (users_seq db + 1) (players db) (achievements db)
              (player_achievements db)
     | SQLite => db
     end,
     Reply 400 (error "Username already exists")).
Proof.
  intros Htaken. unfold register.
  destruct (insert_user_taken variant db username (Some hashed) None Htaken) as (c & ->).
  by destruct variant.
Qed.

(** X12: On a consistent database, registering a free username succeeds: the
    account gets the next id of the sequence and the hash as password, and
    a player record with that id, the username as name, the gender of the
    body ('Male' when it has none) and the starting values is stored with
    it.  Nothing else changes. *)
Theorem register_creates_account_and_player (variant : Variant) (db : Db)
    (username hashed : string) (gender : option string) (now : Z) :
  consistent db ->
  username ∉ map UserRow.username (users db) ->
  register variant db username hashed gender now
  = (mkDb (users db ++ [UserRow.mk (users_seq db) username (Some hashed) None])
          (users_seq db + 1)
          (<[users_seq db := new_player (users_seq db) username (default "Male" gender) now]>
             (players db))
          (achievements db) (player_achievements db),
     Reply 200 success).
Proof. apply register_fresh. Qed.

Lemma find_app_skip {A} (f : A -> bool) (l1 l2 : list A) :
  (forall x, x ∈ l1 -> f x = false) -> find f (l1 ++ l2) = find f l2.
Proof.
  induction l1 as [|x l1 IH]; intros Hnone; [reflexivity|].
  cbn. rewrite (Hnone x) by (by left). apply IH. intros y Hy. apply Hnone. by right.
Qed.

Lemma find_by_username (l : list UserRow.t) (row : UserRow.t) :
  NoDup (map UserRow.username l) ->
  row ∈ l ->
  find (fun u => String.eqb (UserRow.username u) (UserRow.username row)) l = Some row.
Proof.
  induction l as [|x l IH]; intros Hnodup Hrow; [by apply elem_of_nil in Hrow|].
  cbn [map] in Hnodup. apply NoDup_cons in Hnodup as [Hx Hnodup].
  apply elem_of_cons in Hrow as [<-|Hrow]; cbn [find].
  - by rewrite String.eqb_refl.
  - destruct (String.eqb_spec (UserRow.username x) (UserRow.username row)) as [Heq|_].
    + exfalso. apply Hx. rewrite Heq. apply list_elem_of_fmap. by exists row.
    + by apply IH.
Qed.

Lemma me_with_account (db : Db) (user : User.t) (now : Z) :
  user_exists db (User.id user) = true ->
  exists db1 player,
    me db user now = (db1, Reply 200 (user_player user (Some player)))
    /\ players db1 !! User.id user = Some player.
Proof.
  intros Haccount. unfold me.
  destruct (players db !! User.id user) as [player|] eqn:Hplayer.
  - by exists db, player.
  - rewrite (createPlayer_fresh _ _ _ None now Hplayer Haccount).
    cbn [players with_players]. rewrite lookup_insert_eq. eexists _, _.
    split; [reflexivity|]. cbn [players with_players]. apply lookup_insert_eq.
Qed.

Section SigningIn.

Variable compare : string -> string -> bool.

(** X13: After a registration that succeeded, signing in with the username is
    granted exactly for the passwords that [bcrypt.compare] accepts against
    the stored hash, and the token names the account just created. *)
Theorem login_after_register (variant : Variant) (db : Db)
    (username hashed password : string) (gender : option string) (now : Z) :
  consistent db ->
  username ∉ map UserRow.username (users db) ->
  hashed <> "" ->
  login compare variant (fst (register variant db username hashed gender now))
    username password
  = if compare password hashed
    then signed_in (User.mk (users_seq db) username)
    else refused 401 (invalid_login variant).
Proof.
  intros Hcons Hfree Hhash.
  rewrite (register_fresh variant db username hashed gender now Hcons Hfree).
  unfold login. cbn [fst users].
  rewrite find_app_skip.
  - cbn. rewrite String.eqb_refl. cbn.
    destruct (String.eqb_spec hashed "") as [|_]; [done|]. reflexivity.
  - intros u Hu. apply not_true_iff_false. intros Heq. apply String.eqb_eq in Heq.
    apply Hfree. rewrite <- Heq. apply list_elem_of_fmap. by exists u.
Qed.

(** X14: An account without a password, as the Discord sign-in creates them,
    cannot be signed into with any password. *)
Theorem login_refuses_accounts_without_password (variant : Variant) (db : Db)
    (row : UserRow.t) (password : string) :
  NoDup (map UserRow.username (users db)) ->
  row ∈ users db ->
  UserRow.password row = None ->
  login compare variant db (UserRow.username row) password
  = refused 401 (invalid_login variant).
Proof.
  intros Hnodup Hrow Hpassword. unfold login.
  by rewrite (find_by_username _ row Hnodup Hrow), Hpassword.
Qed.

(** X15: A token that login hands out names an account of [users], so the
    fetch-self that follows it answers with a player record, creating it
    if there is none, and does not throw. *)
Theorem login_then_me_gives_a_player (variant : Variant) (db : Db)
    (username password : string) (user : User.t) (now : Z) :
  login compare variant db username password = signed_in user ->
  User.username user = username
  /\ exists db1 player,
       me db user now = (db1, Reply 200 (user_player user (Some player)))
       /\ players db1 !! User.id user = Some player.
Proof.
  unfold login.
  destruct (find _ (users db)) as [row|] eqn:Hfind; [|discriminate].
  destruct (truthy (UserRow.password row)) as [hash|]; [|discriminate].
  destruct (compare password hash); [|discriminate].
  intros [= <-]. apply find_some in Hfind as [Hin Hname].
  apply String.eqb_eq in Hname. split; [exact Hname|].
  apply me_with_account. apply user_exists_elem_of.
  exists row. split; [by apply list_elem_of_In | reflexivity].
Qed.

End SigningIn.

(** ** Fetch-self *)

(** X16: For an identity with neither a player record nor an account row, the
    INSERT of fetch-self breaks the foreign key of [players]: the handler
    throws and nothing is written. *)
Theorem me_without_account_throws (db : Db) (user : User.t) (now : Z) :
  players db !! User.id user = None ->
  user_exists db (User.id user) = false ->
  me db user now = (db, Uncaught (ForeignKeyViolation "fk_user")).
Proof.
  intros Hnone Hnot. unfold me, createPlayer. by rewrite Hnone, Hnot.
Qed.

(** X17: Fetch-self is idempotent on every database: asked again, it writes
    nothing more and gives the answer it gave the first time, be it the
    record it found, the record it created or the exception. *)
Theorem me_twice_is_me_once (db : Db) (user : User.t) (now later : Z) :
  me (fst (me db user now)) user later = (fst (me db user now), snd (me db user now)).
Proof.
  destruct (players db !! User.id user) as [player|] eqn:Hplayer.
  - assert (me db user now = (db, Reply 200 (user_player user (Some player)))) as ->
      by (unfold me; by rewrite Hplayer).
    cbn [fst snd]. unfold me. by rewrite Hplayer.
  - destruct (createPlayer db (User.id user) (User.username user) None now)
      as [db1|e] eqn:Hcreate.
    + assert (me db user now
              = (db1, Reply 200 (user_player user (players db1 !! User.id user)))) as ->
        by (unfold me; by rewrite Hplayer, Hcreate).
      cbn [fst snd]. apply createPlayer_Ok in Hcreate as (_ & g & ->). unfold me.
      cbn [players with_players]. by rewrite lookup_insert_eq.
    + assert (me db user now = (db, Uncaught e)) as ->
        by (unfold me; by rewrite Hplayer, Hcreate).
      cbn [fst snd]. unfold me. rewrite Hplayer.
      unfold createPlayer in *. rewrite Hplayer in *.
      destruct (user_exists db (User.id user)); [discriminate|]. by injection Hcreate as <-.
Qed.

(** ** Signing in with Discord *)

Lemma find_discord_known (db : Db) (row : UserRow.t) (d : string) :
  row ∈ users db ->
  UserRow.discord_id row = Some d ->
  is_Some (find (fun u => bool_decide (UserRow.discord_id u = Some d)) (users db)).
Proof.
  intros Hrow Hd.
  destruct (find _ (users db)) eqn:Hfind; [done|].
  apply list_elem_of_In in Hrow.
  pose proof (find_none _ _ Hfind row Hrow) as Hno. cbn in Hno.
  by rewrite bool_decide_eq_true_2 in Hno.
Qed.

Lemma find_discord_unknown (db : Db) (d : string) :
  (forall u, u ∈ users db -> UserRow.discord_id u <> Some d) ->
  find (fun u => bool_decide (UserRow.discord_id u = Some d)) (users db) = None.
Proof.
  intros Hunknown.
  destruct (find _ (users db)) as [row|] eqn:Hfind; [|reflexivity].
  apply find_some in Hfind as [Hin Hd]. apply list_elem_of_In in Hin.
  apply bool_decide_eq_true_1 in Hd. by destruct (Hunknown row Hin).
Qed.

Lemma discord_callback_known (variant : Variant) (db : Db)
    (code discord_id discord_name : string) (now : Z) (row : UserRow.t) :
  code <> "" ->
  row ∈ users db ->
  UserRow.discord_id row = Some discord_id ->
  discord_callback variant db (Some code) (Some (discord_id, discord_name)) now
  = (db, Reply 200 closing_page).
Proof.
  intros Hcode Hrow Hd. unfold discord_callback. cbn [truthy].
  destruct (String.eqb_spec code "") as [|_]; [done|].
  by destruct (find_discord_known db row discord_id Hrow Hd) as [found ->].
Qed.

(** X18: A Discord user who has an account gets no second one: the callback
    writes nothing, whatever username Discord reports this time. *)
Theorem discord_callback_known_user_writes_nothing (variant : Variant) (db : Db)
    (code discord_id discord_name : string) (now : Z) (row : UserRow.t) :
  code <> "" ->
  row ∈ users db ->
  UserRow.discord_id row = Some discord_id ->
  discord_callback variant db (Some code) (Some (discord_id, discord_name)) now
  = (db, Reply 200 closing_page).
Proof. apply discord_callback_known. Qed.

(** X19: A new Discord user whose Discord username is the username of an
    existing account cannot sign in: the INSERT into [users] breaks the
    uniqueness of [username], the callback answers 500 and writes no row.
    On PostgreSQL the refused INSERT has drawn a value from the sequence of
    ids; on SQLite the whole database is as it was. *)
Theorem discord_callback_fails_on_taken_username (variant : Variant) (db : Db)
    (code discord_id discord_name : string) (now : Z) :
  code <> "" ->
  (forall u, u ∈ users db -> UserRow.discord_id u <> Some discord_id) ->
  discord_name ∈ map UserRow.username (users db) ->
  discord_callback variant db (Some code) (Some (discord_id, discord_name)) now
  = (match variant with
     | Postgres =>
         mkDb (users db) (users_seq db + 1) (players db) (achievements db)
              (player_achievements db)
     | SQLite => db
     end,
     Reply 500 (text "Discord authentication failed")).
Proof.
  intros Hcode Hunknown Htaken. unfold discord_callback. cbn [truthy].
  destruct (String.eqb_spec code "") as [|_]; [done|].
  rewrite (find_discord_unknown db discord_id Hunknown).
  destruct (insert_user_taken variant db discord_name None (Some discord_id) Htaken)
    as (c & ->).
  by destruct variant.
Qed.

(** X20: On a consistent database, the first callback for a Discord user whose
    username is free creates an account without password and a player
    record with the starting values; a later callback for the same Discord
    user finds the account and writes nothing more. *)
Theorem discord_callback_creates_account_once (variant : Variant) (db : Db)
    (code discord_id discord_name : string) (now : Z) :
  code <> "" ->
  consistent db ->
  (forall u, u ∈ users db -> UserRow.discord_id u <> Some discord_id) ->
  discord_name ∉ map UserRow.username (users db) ->
  let db1 :=
    mkDb (users db ++ [UserRow.mk (users_seq db) discord_name None (Some discord_id)])
         (users_seq db + 1)
         (<[users_seq db := new_player (users_seq db) discord_name "Male" now]> (players db))
         (achievements db) (player_achievements db) in
  discord_callback variant db (Some code) (Some (discord_id, discord_name)) now
  = (db1, Reply 200 closing_page)
  /\ forall (code' name' : string) (later : Z),
       code' <> "" ->
       discord_callback variant db1 (Some code') (Some (discord_id, name')) later
       = (db1, Reply 200 closing_page).
Proof.
  intros Hcode Hcons Hunknown Hfree db1. split.
  - unfold discord_callback. cbn [truthy].
    destruct (String.eqb_spec code "") as [|_]; [done|].
    rewrite (find_discord_unknown db discord_id Hunknown).
    pose proof (insert_user_free variant db discord_name None (Some discord_id)
                  Hcons Hfree Hunknown) as Huser.
    rewrite Huser.
    apply insert_user_consistent in Huser as (_ & Hexists & Hnone); [|exact Hcons].
    by rewrite (createPlayer_fresh _ _ _ None now Hnone Hexists).
  - intros code' name' later Hcode'.
    apply (discord_callback_known variant db1 code' discord_id name' later
             (UserRow.mk (users_seq db) discord_name None (Some discord_id)));
      [exact Hcode' | | reflexivity].
    cbn [db1 users]. apply elem_of_app. right. by left.
Qed.

(** ** More about achievement evaluation *)

Lemma isMet_without_player (ach : Achievement.t) :
  isMet None ach = if decide (known_kind ach) then Throw TypeError else Ok false.
Proof.
  unfold isMet, requirement, known_kind.
  destruct ach as [id ten tth den dth icon kind value]. cbn.
  destruct (String.eqb_spec kind "level") as [->|Hlevel]; cbn.
  - rewrite decide_True by (by left). reflexivity.
  - destruct (String.eqb_spec kind "str") as [->|Hstr]; cbn.
    + rewrite decide_True by (right; by left). reflexivity.
    + destruct (String.eqb_spec kind "gold") as [->|Hgold]; cbn.
      * rewrite decide_True by (right; by right). reflexivity.
      * rewrite decide_False by (intros [?|[?|?]]; contradiction). reflexivity.
Qed.

Lemma check_loop_without_player (unlockedIds : list string) (player_id now : Z)
    (achs : list Achievement.t) :
  forall (db : Db) (newlyUnlocked : list Achievement.t),
    check_loop None unlockedIds player_id now achs db newlyUnlocked
    = (db,
       if decide (filter (fun ach => (Achievement.id ach ∉ unlockedIds) /\ known_kind ach)
                         achs = [])
       then Ok newlyUnlocked
       else Throw TypeError).
Proof.
  induction achs as [|ach achs IH]; intros db newlyUnlocked; [reflexivity|].
  cbn [check_loop].
  destruct (includes unlockedIds (Achievement.id ach)) eqn:Hinc; cbn [negb].
  - apply includes_elem_of in Hinc.
    rewrite filter_cons_False by (intros [Hnot _]; contradiction). apply IH.
  - assert (Achievement.id ach ∉ unlockedIds) as Hnot.
    { intros Hin. apply includes_elem_of in Hin. congruence. }
    rewrite isMet_without_player. destruct (decide (known_kind ach)) as [Hkind|Hkind].
    + rewrite filter_cons_True by done. reflexivity.
    + rewrite filter_cons_False by (intros [_ ?]; contradiction). apply IH.
Qed.

(** X21: An evaluation for an identity without a player record writes nothing.
    It throws as soon as it meets a catalog entry of a known kind that the
    table of unlock records does not pair with the identity, since it reads
    a field of the missing record; if there is no such entry it answers
    with an empty list. *)
Theorem check_achievements_without_player (variant : Variant) (db : Db) (user : User.t)
    (now : Z) :
  players db !! User.id user = None ->
  check_achievements variant db user now
  = (db,
     if decide (filter (fun ach =>
                          ~ Unlocked db (User.id user) (Achievement.id ach)
                          /\ known_kind ach)
                       (achievements db) = [])
     then Reply 200 (success_newlyUnlocked [])
     else Uncaught TypeError).
Proof.
  intros Hnone. unfold check_achievements. rewrite Hnone, check_loop_without_player.
  rewrite (list_filter_iff
             (fun ach => (Achievement.id ach ∉ unlockedIds_of variant db (User.id user))
                         /\ known_kind ach)
             (fun ach => ~ Unlocked db (User.id user) (Achievement.id ach)
                         /\ known_kind ach)).
  - by destruct (decide _).
  - intros ach. by rewrite unlockedIds_of_Unlocked.
Qed.

(** X22: What evaluation records is what the list of achievements then shows.
    After an evaluation for an existing player, GET /api/achievements
    reports the catalog unchanged and, as unlocked ids, the ids it reported
    before together with the ids of the entries the evaluation returned, as
    a list up to order (the SELECT has no ORDER BY).  An id is reported
    exactly when the table paired it with the player before or the
    evaluation returned its entry. *)
Theorem get_achievements_after_check (variant : Variant) (db db1 : Db) (user : User.t)
    (now : Z) (player : Player.t) (newlyUnlocked : list Achievement.t) :
  players db !! User.id user = Some player ->
  NoDup (map Achievement.id (achievements db)) ->
  check_achievements variant db user now
  = (db1, Reply 200 (success_newlyUnlocked newlyUnlocked)) ->
  exists before after,
    get_achievements variant db user
    = (db, Reply 200 (achievements_unlockedIds (achievements db) before))
    /\ get_achievements variant db1 user
       = (db1, Reply 200 (achievements_unlockedIds (achievements db) after))
    /\ after ≡ₚ before ++ map Achievement.id newlyUnlocked
    /\ forall id,
         id ∈ after
         <-> Unlocked db (User.id user) id \/ id ∈ map Achievement.id newlyUnlocked.
Proof.
  intros Hplayer Hnodup.
  rewrite (check_achievements_due variant db user now player Hplayer Hnodup).
  intros [= <- <-]. unfold get_achievements.
  cbn [achievements with_player_achievements].
  set (newlyUnlocked := filter _ (achievements db)).
  destruct (unlockedIds_of_recorded variant db (User.id user) now newlyUnlocked)
    as [Hperm Hpg].
  eexists _, _. split; [reflexivity|]. split; [reflexivity|].
  split; [exact Hperm|].
  intros id. rewrite Hperm, elem_of_app, unlockedIds_of_Unlocked. reflexivity.
Qed.

(** X23: An evaluation never touches the unlock records of another player,
    whether it ends or throws. *)
Theorem check_achievements_leaves_other_players (variant : Variant) (db : Db)
    (user : User.t) (now : Z) (other : Z) :
  other <> User.id user ->
  filter (fun u => Unlock.player_id u = other)
         (player_achievements (fst (check_achievements variant db user now)))
  = filter (fun u => Unlock.player_id u = other) (player_achievements db).
Proof.
  intros Hother. unfold check_achievements.
  destruct (check_loop_appends (players db !! User.id user)
              (unlockedIds_of variant db (User.id user)) (User.id user) now
              (achievements db) db []) as (rows & Heq & Hrows & _).
  assert (player_achievements
            (fst (check_loop (players db !! User.id user)
                    (unlockedIds_of variant db (User.id user)) (User.id user) now
                    (achievements db) db []))
          = player_achievements db ++ rows) as Hrows' by (by rewrite Heq).
  destruct (check_loop _ _ _ _ _ _ _) as [db1' [newlyUnlocked|e]];
    cbn [fst] in *; rewrite Hrows', filter_app, (filter_none _ rows), app_nil_r;
    try reflexivity;
    intros u Hu Hid; rewrite Forall_forall in Hrows; apply Hrows in Hu; congruence.
Qed.

(** ** Start-up *)

Lemma insert_achievement_present (db : Db) (ach : Achievement.t) (id : string) :
  existsb (fun a => String.eqb (Achievement.id a) id) (achievements db) = true
  \/ id = Achievement.id ach ->
  existsb (fun a => String.eqb (Achievement.id a) id)
          (achievements (insert_achievement db ach)) = true.
Proof.
  unfold insert_achievement.
  destruct (existsb (fun a => String.eqb (Achievement.id a) (Achievement.id ach))
                    (achievements db)) eqn:Hach.
  - intros [Hid| ->]; [exact Hid | exact Hach].
  - cbn [achievements with_achievements]. rewrite existsb_app. cbn.
    intros [-> | ->]; [reflexivity|]. rewrite String.eqb_refl.
    apply orb_true_iff. right. reflexivity.
Qed.

Lemma insert_achievements_present (achs : list Achievement.t) (id : string) :
  forall db : Db,
    existsb (fun a => String.eqb (Achievement.id a) id) (achievements db) = true
    \/ id ∈ map Achievement.id achs ->
    existsb (fun a => String.eqb (Achievement.id a) id)
            (achievements (fold_left insert_achievement achs db)) = true.
Proof.
  induction achs as [|ach achs IH]; intros db Hid; cbn [fold_left].
  - destruct Hid as [Hid|Hid]; [exact Hid | by apply elem_of_nil in Hid].
  - apply IH. destruct Hid as [Hid|Hid].
    + left. apply insert_achievement_present. by left.
    + cbn [map] in Hid. apply elem_of_cons in Hid as [->|Hid]; [|by right].
      left. apply insert_achievement_present. by right.
Qed.

Lemma insert_achievements_nothing_new (achs : list Achievement.t) (db : Db) :
  (forall ach, ach ∈ achs ->
     existsb (fun a => String.eqb (Achievement.id a) (Achievement.id ach))
             (achievements db) = true) ->
  fold_left insert_achievement achs db = db.
Proof.
  induction achs as [|ach achs IH]; intros Hall; cbn [fold_left]; [reflexivity|].
  unfold insert_achievement at 2. rewrite (Hall ach) by (by left).
  apply IH. intros a Ha. apply Hall. by right.
Qed.

Lemma insert_achievements_append (achs : list Achievement.t) :
  forall db : Db,
    users (fold_left insert_achievement achs db) = users db
    /\ users_seq (fold_left insert_achievement achs db) = users_seq db
    /\ players (fold_left insert_achievement achs db) = players db
    /\ player_achievements (fold_left insert_achievement achs db) = player_achievements db
    /\ achievements db `prefix_of` achievements (fold_left insert_achievement achs db).
Proof.
  induction achs as [|ach achs IH]; intros db; cbn [fold_left]; [done|].
  destruct (IH (insert_achievement db ach)) as (-> & -> & -> & -> & Hprefix).
  unfold insert_achievement in *.
  destruct (existsb _ (achievements db)); [done|].
  repeat split. etrans; [|exact Hprefix]. by eexists.
Qed.

(** X24: Starting the server again is harmless.  [initDb] on a database that
    has been initialised changes nothing, and on any database it keeps the
    accounts, players and unlock records as they are and the rows of the
    catalog it finds, as they are, in front of the ones it adds: a catalog
    row is never overwritten by its initial version. *)
Theorem initDb_again_changes_nothing (db : Db) :
  initDb (initDb db) = initDb db
  /\ users (initDb db) = users db
  /\ players (initDb db) = players db
  /\ player_achievements (initDb db) = player_achievements db
  /\ achievements db `prefix_of` achievements (initDb db).
Proof.
  destruct (insert_achievements_append initialAchievements db)
    as (Husers & _ & Hplayers & Hunlocks & Hprefix).
  split; [|by repeat split].
  unfold initDb. apply insert_achievements_nothing_new.
  intros ach Hach. apply insert_achievements_present. right.
  apply list_elem_of_fmap. by exists ach.
Qed.

(** ** The bound on [max_hp] along runs *)

Lemma row_step_max_hp (now : Z) (req : Request) (row : option Player.t)
    (player : Player.t) :
  row_step now req row (Some player) ->
  (forall before, row = Some before -> max_hp_settled before) ->
  max_hp_settled player.
Proof.
  intros Hstep Hinv.
  inversion Hstep as [ | | token body before Hreq Hpoints | before
                     | l before | c before | l c before | n before ]; subst.
  - by apply Hinv.
  - right. by split.
  - left. reflexivity.
  - by apply (Hinv before).
  - by apply (Hinv before).
  - by apply (Hinv before).
  - by apply (Hinv before).
  - by apply (Hinv before).
Qed.

Section MaxHp.

Variable variant : Variant.
Variable trim : string -> string.
Variable length : string -> Z.

Lemma serve_max_hp (reqs : list (Z * Request)) :
  forall db : Db,
    (forall k player, players db !! k = Some player -> max_hp_settled player) ->
    forall k player,
      players (serve variant trim length db reqs) !! k = Some player -> max_hp_settled player.
Proof.
  induction reqs as [|[now req] reqs IH]; intros db Hinv; cbn [serve]; [exact Hinv|].
  apply IH. intros k player Hplayer.
  pose proof (handle_row variant trim length db now req k) as Hstep.
  rewrite Hplayer in Hstep.
  eapply row_step_max_hp; [exact Hstep|]. intros before. apply Hinv.
Qed.

(** X25: However the server is used from a fresh start, a player record has
    either [max_hp = 100 + vit * 10] or, when it was never trained, the
    [max_hp] of 100 and the [vit] of 1 it was created with: no request but
    an accepted train request brings [max_hp] in line with [vit]. *)
Theorem max_hp_follows_vit_once_trained (reqs : list (Z * Request)) (k : Z)
    (player : Player.t) :
  players (serve variant trim length started reqs) !! k = Some player ->
  Player.max_hp player = 100 + Player.vit player * 10
  \/ (Player.max_hp player = 100 /\ Player.vit player = 1).
Proof.
  apply serve_max_hp. intros k' player' Hempty.
  change (players started) with (∅ : gmap Z Player.t) in Hempty.
  by rewrite lookup_empty in Hempty.
Qed.

End MaxHp.

(** ** The training panel *)

Lemma click_within_points (player : Player.t) (pendingStats : Pending.t) (c : Click) :
  0 <= Player.stat_points player ->
  0 <= Pending.str pendingStats /\ 0 <= Pending.dex pendingStats
  /\ 0 <= Pending.vit pendingStats
  /\ totalSpent pendingStats <= Player.stat_points player ->
  let after := click player pendingStats c in
  0 <= Pending.str after /\ 0 <= Pending.dex after /\ 0 <= Pending.vit after
  /\ totalSpent after <= Player.stat_points player.
Proof.
  intros Hpoints (Hs & Hd & Hv & Htotal) after. subst after.
  destruct c as [stat|stat|]; cbn [click]; unfold handleAdjust.
  - change (Z.gtb 1 0) with true. change (Z.ltb 1 0) with false. cbn [andb].
    destruct (Z.leb_spec (remaining player pendingStats) 0) as [Hrem|Hrem]; [done|].
    unfold remaining, totalSpent in *.
    destruct stat, pendingStats as [s d v]; cbn in *; lia.
  - change (Z.gtb (-1) 0) with false. change (Z.ltb (-1) 0) with true. cbn [andb].
    destruct (Z.leb_spec (pending pendingStats stat) 0) as [Hpend|Hpend]; [done|].
    unfold totalSpent in *.
    destruct stat, pendingStats as [s d v]; cbn in *; lia.
  - unfold totalSpent. cbn. lia.
Qed.

Lemma clicks_within_points (player : Player.t) (clicks : list Click) :
  0 <= Player.stat_points player ->
  forall pendingStats : Pending.t,
    0 <= Pending.str pendingStats /\ 0 <= Pending.dex pendingStats
    /\ 0 <= Pending.vit pendingStats
    /\ totalSpent pendingStats <= Player.stat_points player ->
    let after := fold_left (click player) clicks pendingStats in
    0 <= Pending.str after /\ 0 <= Pending.dex after /\ 0 <= Pending.vit after
    /\ totalSpent after <= Player.stat_points player.
Proof.
  intros Hpoints. induction clicks as [|c clicks IH]; intros pendingStats Hinv;
    cbn [fold_left]; [exact Hinv|].
  apply IH. by apply click_within_points.
Qed.

(** X26: Whatever is clicked in the training panel of a player whose
    [stat_points] are not negative, no pending amount goes below zero and
    the points shown as remaining do not go below zero. *)
Theorem panel_never_overspends (player : Player.t) (clicks : list Click) :
  0 <= Player.stat_points player ->
  0 <= Pending.str (clicked player clicks)
  /\ 0 <= Pending.dex (clicked player clicks)
  /\ 0 <= Pending.vit (clicked player clicks)
  /\ 0 <= remaining player (clicked player clicks).
Proof.
  intros Hpoints.
  destruct (clicks_within_points player clicks Hpoints (Pending.mk 0 0 0))
    as (Hs & Hd & Hv & Htotal); [unfold totalSpent; cbn; lia|].
  unfold clicked, remaining. repeat split; [exact Hs | exact Hd | exact Hv | lia].
Qed.

(** X27: What the panel posts, the server accepts.  When the panel shows the
    record the server holds, the body that confirm posts after any series
    of clicks claims as [pointsSpent] the sum of its three deltas, none of
    them negative; and when its numbers and results are within the range of
    the INTEGER columns (on PostgreSQL, 32 bits; on SQLite this asks
    nothing), train answers it with success: [stat_points] go down by that
    sum and stay at zero or above, and [max_hp] is [100 + vit * 10] for the
    new [vit]. *)
Theorem confirmed_training_is_accepted (variant : Variant) (db : Db) (user : User.t)
    (player : Player.t) (clicks : list Click) (body : TrainBody.t) (now : Z) :
  players db !! User.id user = Some player ->
  0 <= Player.stat_points player ->
  handleConfirm (clicked player clicks) = Some body ->
  trained_fits variant player body (100 + (Player.vit player + TrainBody.vit body) * 10)
  = true ->
  TrainBody.pointsSpent body = TrainBody.str body + TrainBody.dex body + TrainBody.vit body
  /\ 0 <= TrainBody.str body /\ 0 <= TrainBody.dex body /\ 0 <= TrainBody.vit body
  /\ 0 < TrainBody.pointsSpent body
  /\ exists db1 updated,
       train variant db user body now = (db1, Reply 200 (success_player (Some updated)))
       /\ players db1 !! User.id user = Some updated
       /\ Player.stat_points updated
          = Player.stat_points player - TrainBody.pointsSpent body
       /\ 0 <= Player.stat_points updated
       /\ Player.str updated = Player.str player + TrainBody.str body
       /\ Player.dex updated = Player.dex player + TrainBody.dex body
       /\ Player.vit updated = Player.vit player + TrainBody.vit body
       /\ Player.max_hp updated = 100 + Player.vit updated * 10.
Proof.
  intros Hplayer Hpoints Hconfirm Hfits.
  destruct (clicks_within_points player clicks Hpoints (Pending.mk 0 0 0))
    as (Hs & Hd & Hv & Htotal); [unfold totalSpent; cbn; lia|].
  fold (clicked player clicks) in Hs, Hd, Hv, Htotal.
  unfold handleConfirm in Hconfirm.
  destruct (Z.eqb_spec (totalSpent (clicked player clicks)) 0) as [|Hnonzero];
    [discriminate|].
  injection Hconfirm as <-. cbn [TrainBody.str TrainBody.dex TrainBody.vit
                                  TrainBody.pointsSpent] in *.
  unfold totalSpent in *.
  split; [reflexivity|]. split; [exact Hs|]. split; [exact Hd|]. split; [exact Hv|].
  split; [lia|].
  eexists _, _. split.
  - apply train_accepted; [exact Hplayer | cbn; lia | exact Hfits].
  - cbn [players with_players]. rewrite lookup_insert_eq.
    split; [reflexivity|]. cbn. repeat split; lia.
Qed.

(** ** The further theorems at work on sample data *)

Lemma alice_db_consistent : consistent alice_db.
Proof. apply (serve_consistent Postgres keep bytes _ started started_is_consistent). Qed.

Lemma empty_train_settles_max_hp_witness :
  players account_db !! User.id alice = None
  /\ user_exists account_db (User.id alice) = true
  /\ exists db1 created db2 updated,
       me account_db alice 10 = (db1, Reply 200 (user_player alice (Some created)))
       /\ Player.max_hp created = 100
       /\ 100 + Player.vit created * 10 = 110
       /\ train SQLite db1 alice (TrainBody.mk 0 0 0 0) 20
          = (db2, Reply 200 (success_player (Some updated)))
       /\ updated = Player.set_last_save 20
                      (Player.mk (Player.id created) (Player.name created)
                         (Player.gender created) 1 0 100 110 500 50 "Wooden Sword"
                         1 1 1 5 10 "EN" 10 "#ef4444").
Proof.
  assert (players account_db !! User.id alice = None) as H1 by (by vm_compute).
  assert (user_exists account_db (User.id alice) = true) as H2 by (by vm_compute).
  exact (conj H1 (conj H2 (empty_train_settles_max_hp SQLite account_db alice 10 20 H1 H2))).
Defined.

Lemma settings_stores_what_is_given_witness :
  players alice_db !! User.id alice = Some alice_player
  /\ settings alice_db alice (Some "TH") (Some "")
     = (with_players
          (<[User.id alice :=
               Player.set_theme_color
                 (default (Player.theme_color alice_player) (truthy (Some "")))
                 (Player.set_language
                    (default (Player.language alice_player) (truthy (Some "TH")))
                    alice_player)]> (players alice_db)) alice_db,
        Reply 200
          (success_player
             (Some (Player.set_theme_color
                      (default (Player.theme_color alice_player) (truthy (Some "")))
                      (Player.set_language
                         (default (Player.language alice_player) (truthy (Some "TH")))
                         alice_player))))).
Proof.
  assert (players alice_db !! User.id alice = Some alice_player) as H1 by (by vm_compute).
  exact (conj H1
    (settings_stores_what_is_given alice_db alice (Some "TH") (Some "") alice_player H1)).
Defined.

Lemma updates_without_a_record_succeed_empty_witness :
  players account_db !! User.id alice = None
  /\ "Alice" <> ""
  /\ 2 <= bytes (keep "Alice")
  /\ save account_db alice 20 = (account_db, Reply 200 (success_player None))
  /\ settings account_db alice (Some "TH") None
     = (account_db, Reply 200 (success_player None))
  /\ update_name keep bytes account_db alice (Some "Alice")
     = (account_db, Reply 200 (success_player None)).
Proof.
  assert (players account_db !! User.id alice = None) as H1 by (by vm_compute).
  assert ("Alice" <> "") as H2 by discriminate.
  assert (2 <= bytes (keep "Alice")) as H3 by (by vm_compute).
  exact (conj H1 (conj H2 (conj H3
    (updates_without_a_record_succeed_empty keep bytes account_db alice 20
       (Some "TH") None "Alice" H1 H2 H3)))).
Defined.

Lemma update_name_refuses_short_names_witness :
  (Some "A" = None \/ Some "A" = Some ""
   \/ exists n, Some "A" = Some n /\ bytes (keep n) < 2)
  /\ update_name keep bytes alice_db alice (Some "A")
     = (alice_db, Reply 400 (error "Name must be at least 2 characters long")).
Proof.
  assert (Some "A" = None \/ Some "A" = Some ""
          \/ exists n, Some "A" = Some n /\ bytes (keep n) < 2) as H1
    by (right; right; exists "A"; split; [reflexivity | by vm_compute]).
  exact (conj H1
    (update_name_refuses_short_names keep bytes alice_db alice (Some "A") H1)).
Defined.

Lemma update_name_stores_trimmed_name_witness :
  players alice_db !! User.id alice = Some alice_player
  /\ "Alice the Slayer" <> ""
  /\ 2 <= bytes (keep "Alice the Slayer")
  /\ update_name keep bytes alice_db alice (Some "Alice the Slayer")
     = (with_players
          (<[User.id alice := Player.set_name (keep "Alice the Slayer") alice_player]>
             (players alice_db)) alice_db,
        Reply 200
          (success_player
             (Some (Player.set_name (keep "Alice the Slayer") alice_player)))).
Proof.
  assert (players alice_db !! User.id alice = Some alice_player) as H1 by (by vm_compute).
  assert ("Alice the Slayer" <> "") as H2 by discriminate.
  assert (2 <= bytes (keep "Alice the Slayer")) as H3 by (by vm_compute).
  exact (conj H1 (conj H2 (conj H3
    (update_name_stores_trimmed_name keep bytes alice_db alice "Alice the Slayer"
       alice_player H1 H2 H3)))).
Defined.

Lemma requests_without_session_write_nothing_witness :
  token_of (Train no_token (TrainBody.mk 5 0 0 5)) = Some no_token
  /\ handle Postgres keep bytes alice_db 20 (Train no_token (TrainBody.mk 5 0 0 5))
     = (alice_db, Reply 401 (error "Unauthorized")).
Proof.
  assert (token_of (Train no_token (TrainBody.mk 5 0 0 5)) = Some no_token) as H1
    by reflexivity.
  exact (conj H1
    (requests_without_session_write_nothing Postgres keep bytes alice_db 20
       (Train no_token (TrainBody.mk 5 0 0 5)) no_token H1)).
Defined.

Lemma unlock_keys_stay_unique_witness :
  NoDup (map unlock_key (player_achievements veteran_db))
  /\ NoDup (map unlock_key
              (player_achievements
                 (serve Postgres keep bytes veteran_db
                    [(30, CheckAchievements (good_token alice));
                     (31, CheckAchievements (good_token alice))]))).
Proof.
  assert (NoDup (map unlock_key (player_achievements veteran_db))) as H1
    by (apply (bool_decide_unpack _); by vm_compute).
  exact (conj H1
    (unlock_keys_stay_unique Postgres keep bytes
       [(30, CheckAchievements (good_token alice));
        (31, CheckAchievements (good_token alice))] veteran_db H1)).
Defined.

Lemma register_refuses_taken_username_witness :
  "alice" ∈ map UserRow.username (users alice_db)
  /\ register Postgres alice_db "alice" "$2a$10$7EqJtq98hPqEX7fNZaFWoO" (Some "Female") 11
     = (mkDb (users alice_db) (users_seq alice_db + 1) (players alice_db)
             (achievements alice_db) (player_achievements alice_db),
        Reply 400 (error "Username already exists")).
Proof.
  assert ("alice" ∈ map UserRow.username (users alice_db)) as H1
    by (apply (bool_decide_unpack _); by vm_compute).
  exact (conj H1
    (register_refuses_taken_username Postgres alice_db "alice"
       "$2a$10$7EqJtq98hPqEX7fNZaFWoO" (Some "Female") 11 H1)).
Defined.

Lemma register_creates_account_and_player_witness :
  consistent alice_db
  /\ ("carol" ∉ map UserRow.username (users alice_db))
  /\ register Postgres alice_db "carol" "$2a$10$7EqJtq98hPqEX7fNZaFWoO" (Some "Female") 11
     = (mkDb (users alice_db
              ++ [UserRow.mk (users_seq alice_db) "carol"
                    (Some "$2a$10$7EqJtq98hPqEX7fNZaFWoO") None])
             (users_seq alice_db + 1)
             (<[users_seq alice_db :=
                  new_player (users_seq alice_db) "carol"
                    (default "Male" (Some "Female")) 11]> (players alice_db))
             (achievements alice_db) (player_achievements alice_db),
        Reply 200 success).
Proof.
  assert ("carol" ∉ map UserRow.username (users alice_db)) as H2
    by (apply (bool_decide_unpack _); by vm_compute).
  exact (conj alice_db_consistent (conj H2
    (register_creates_account_and_player Postgres alice_db "carol"
       "$2a$10$7EqJtq98hPqEX7fNZaFWoO" (Some "Female") 11 alice_db_consistent H2))).
Defined.

Lemma login_after_register_witness :
  consistent alice_db
  /\ ("carol" ∉ map UserRow.username (users alice_db))
  /\ "$2a$10$hunter2" <> ""
  /\ login prefix_compare SQLite
       (fst (register SQLite alice_db "carol" "$2a$10$hunter2" None 11)) "carol" "hunter2"
     = if prefix_compare "hunter2" "$2a$10$hunter2"
       then signed_in (User.mk (users_seq alice_db) "carol")
       else refused 401 (invalid_login SQLite).
Proof.
  assert ("carol" ∉ map UserRow.username (users alice_db)) as H2
    by (apply (bool_decide_unpack _); by vm_compute).
  assert ("$2a$10$hunter2" <> "") as H3 by discriminate.
  exact (conj alice_db_consistent (conj H2 (conj H3
    (login_after_register prefix_compare SQLite alice_db "carol" "$2a$10$hunter2"
       "hunter2" None 11 alice_db_consistent H2 H3)))).
Defined.

Lemma login_refuses_accounts_without_password_witness :
  NoDup (map UserRow.username (users discord_db))
  /\ bob_row ∈ users discord_db
  /\ UserRow.password bob_row = None
  /\ login prefix_compare Postgres discord_db (UserRow.username bob_row) ""
     = refused 401 (invalid_login Postgres).
Proof.
  assert (NoDup (map UserRow.username (users discord_db))) as H1
    by (apply (bool_decide_unpack _); by vm_compute).
  assert (bob_row ∈ users discord_db) as H2
    by (vm_compute; right; left).
  assert (UserRow.password bob_row = None) as H3 by reflexivity.
  exact (conj H1 (conj H2 (conj H3
    (login_refuses_accounts_without_password prefix_compare Postgres discord_db
       bob_row "" H1 H2 H3)))).
Defined.

Lemma login_then_me_gives_a_player_witness :
  login prefix_compare Postgres alice_db "alice" "N9qo8uLOickgx2ZMRZoMye" = signed_in alice
  /\ User.username alice = "alice"
  /\ exists db1 player,
       me alice_db alice 12 = (db1, Reply 200 (user_player alice (Some player)))
       /\ players db1 !! User.id alice = Some player.
Proof.
  assert (login prefix_compare Postgres alice_db "alice" "N9qo8uLOickgx2ZMRZoMye"
          = signed_in alice) as H1 by (by vm_compute).
  exact (conj H1
    (login_then_me_gives_a_player prefix_compare Postgres alice_db "alice"
       "N9qo8uLOickgx2ZMRZoMye" alice 12 H1)).
Defined.

Lemma me_without_account_throws_witness :
  players started !! User.id alice = None
  /\ user_exists started (User.id alice) = false
  /\ me started alice 10 = (started, Uncaught (ForeignKeyViolation "fk_user")).
Proof.
  assert (players started !! User.id alice = None) as H1 by (by vm_compute).
  assert (user_exists started (User.id alice) = false) as H2 by (by vm_compute).
  exact (conj H1 (conj H2 (me_without_account_throws started alice 10 H1 H2))).
Defined.

Lemma discord_callback_known_user_writes_nothing_witness :
  "kq3PsKH1qbCvGz4WjZnyEeSeCLiJSV" <> ""
  /\ bob_row ∈ users discord_db
  /\ UserRow.discord_id bob_row = Some "80351110224678912"
  /\ discord_callback Postgres discord_db (Some "kq3PsKH1qbCvGz4WjZnyEeSeCLiJSV")
       (Some ("80351110224678912", "bobby")) 40
     = (discord_db, Reply 200 closing_page).
Proof.
  assert ("kq3PsKH1qbCvGz4WjZnyEeSeCLiJSV" <> "") as H1 by discriminate.
  assert (bob_row ∈ users discord_db) as H2 by (vm_compute; right; left).
  assert (UserRow.discord_id bob_row = Some "80351110224678912") as H3 by reflexivity.
  exact (conj H1 (conj H2 (conj H3
    (discord_callback_known_user_writes_nothing Postgres discord_db
       "kq3PsKH1qbCvGz4WjZnyEeSeCLiJSV" "80351110224678912" "bobby" 40 bob_row
       H1 H2 H3)))).
Defined.

Lemma discord_callback_fails_on_taken_username_witness :
  "kq3PsKH1qbCvGz4WjZnyEeSeCLiJSV" <> ""
  /\ (forall u, u ∈ users alice_db -> UserRow.discord_id u <> Some "80351110224678912")
  /\ "alice" ∈ map UserRow.username (users alice_db)
  /\ discord_callback Postgres alice_db (Some "kq3PsKH1qbCvGz4WjZnyEeSeCLiJSV")
       (Some ("80351110224678912", "alice")) 40
     = (mkDb (users alice_db) (users_seq alice_db + 1) (players alice_db)
             (achievements alice_db) (player_achievements alice_db),
        Reply 500 (text "Discord authentication failed")).
Proof.
  assert ("kq3PsKH1qbCvGz4WjZnyEeSeCLiJSV" <> "") as H1 by discriminate.
  assert (forall u, u ∈ users alice_db ->
                    UserRow.discord_id u <> Some "80351110224678912") as H2
    by (apply Forall_forall; apply (bool_decide_unpack _); by vm_compute).
  assert ("alice" ∈ map UserRow.username (users alice_db)) as H3
    by (apply (bool_decide_unpack _); by vm_compute).
  exact (conj H1 (conj H2 (conj H3
    (discord_callback_fails_on_taken_username Postgres alice_db
       "kq3PsKH1qbCvGz4WjZnyEeSeCLiJSV" "80351110224678912" "alice" 40 H1 H2 H3)))).
Defined.

Lemma discord_callback_creates_account_once_witness :
  "kq3PsKH1qbCvGz4WjZnyEeSeCLiJSV" <> ""
  /\ consistent alice_db
  /\ (forall u, u ∈ users alice_db -> UserRow.discord_id u <> Some "80351110224678912")
  /\ ("bob" ∉ map UserRow.username (users alice_db))
  /\ discord_callback Postgres alice_db (Some "kq3PsKH1qbCvGz4WjZnyEeSeCLiJSV")
       (Some ("80351110224678912", "bob")) 40
     = (mkDb (users alice_db
              ++ [UserRow.mk (users_seq alice_db) "bob" None (Some "80351110224678912")])
             (users_seq alice_db + 1)
             (<[users_seq alice_db := new_player (users_seq alice_db) "bob" "Male" 40]>
                (players alice_db))
             (achievements alice_db) (player_achievements alice_db),
        Reply 200 closing_page)
  /\ forall (code' name' : string) (later : Z),
       code' <> "" ->
       discord_callback Postgres
         (mkDb (users alice_db
                ++ [UserRow.mk (users_seq alice_db) "bob" None (Some "80351110224678912")])
               (users_seq alice_db + 1)
               (<[users_seq alice_db := new_player (users_seq alice_db) "bob" "Male" 40]>
                  (players alice_db))
               (achievements alice_db) (player_achievements alice_db))
         (Some code') (Some ("80351110224678912", name')) later
       = (mkDb (users alice_db
                ++ [UserRow.mk (users_seq alice_db) "bob" None (Some "80351110224678912")])
               (users_seq alice_db + 1)
               (<[users_seq alice_db := new_player (users_seq alice_db) "bob" "Male" 40]>
                  (players alice_db))
               (achievements alice_db) (player_achievements alice_db),
          Reply 200 closing_page).
Proof.
  assert ("kq3PsKH1qbCvGz4WjZnyEeSeCLiJSV" <> "") as H1 by discriminate.
  assert (forall u, u ∈ users alice_db ->
                    UserRow.discord_id u <> Some "80351110224678912") as H3
    by (apply Forall_forall; apply (bool_decide_unpack _); by vm_compute).
  assert ("bob" ∉ map UserRow.username (users alice_db)) as H4
    by (apply (bool_decide_unpack _); by vm_compute).
  exact (conj H1 (conj alice_db_consistent (conj H3 (conj H4
    (discord_callback_creates_account_once Postgres alice_db
       "kq3PsKH1qbCvGz4WjZnyEeSeCLiJSV"
       "80351110224678912" "bob" 40 H1 alice_db_consistent H3 H4))))).
Defined.

Lemma check_achievements_without_player_witness :
  players account_db !! User.id alice = None
  /\ check_achievements Postgres account_db alice 30
     = (account_db,
        if decide (filter (fun ach =>
                             ~ Unlocked account_db (User.id alice) (Achievement.id ach)
                             /\ known_kind ach)
                          (achievements account_db) = [])
        then Reply 200 (success_newlyUnlocked [])
        else Uncaught TypeError).
Proof.
  assert (players account_db !! User.id alice = None) as H1 by (by vm_compute).
  exact (conj H1 (check_achievements_without_player Postgres account_db alice 30 H1)).
Defined.

Lemma get_achievements_after_check_witness :
  players rivals_db !! User.id alice = Some veteran
  /\ NoDup (map Achievement.id (achievements rivals_db))
  /\ check_achievements SQLite rivals_db alice 30
     = (fst (check_achievements SQLite rivals_db alice 30),
        Reply 200 (success_newlyUnlocked
                     (filter (fun ach => Achievement.id ach = "lvl_5")
                             initialAchievements)))
  /\ exists before after,
       get_achievements SQLite rivals_db alice
       = (rivals_db, Reply 200 (achievements_unlockedIds (achievements rivals_db) before))
       /\ get_achievements SQLite (fst (check_achievements SQLite rivals_db alice 30)) alice
          = (fst (check_achievements SQLite rivals_db alice 30),
             Reply 200 (achievements_unlockedIds (achievements rivals_db) after))
       /\ after ≡ₚ before
                  ++ map Achievement.id
                       (filter (fun ach => Achievement.id ach = "lvl_5")
                               initialAchievements)
       /\ forall id,
            id ∈ after
            <-> Unlocked rivals_db (User.id alice) id
                \/ id ∈ map Achievement.id
                         (filter (fun ach => Achievement.id ach = "lvl_5")
                                 initialAchievements).
Proof.
  assert (players rivals_db !! User.id alice = Some veteran) as H1 by (by vm_compute).
  assert (NoDup (map Achievement.id (achievements rivals_db))) as H2
    by (apply (bool_decide_unpack _); by vm_compute).
  assert (check_achievements SQLite rivals_db alice 30
          = (fst (check_achievements SQLite rivals_db alice 30),
             Reply 200 (success_newlyUnlocked
                          (filter (fun ach => Achievement.id ach = "lvl_5")
                                  initialAchievements)))) as H3 by (by vm_compute).
  exact (conj H1 (conj H2 (conj H3
    (get_achievements_after_check SQLite rivals_db _ alice 30 veteran _ H1 H2 H3)))).
Defined.

Lemma check_achievements_leaves_other_players_witness :
  2 <> User.id alice
  /\ filter (fun u => Unlock.player_id u = 2)
            (player_achievements (fst (check_achievements Postgres rivals_db alice 30)))
     = filter (fun u => Unlock.player_id u = 2) (player_achievements rivals_db).
Proof.
  assert (2 <> User.id alice) as H1 by (cbn; lia).
  exact (conj H1 (check_achievements_leaves_other_players Postgres rivals_db alice 30 2 H1)).
Defined.

Lemma max_hp_follows_vit_once_trained_witness :
  players (serve Postgres keep bytes started first_day) !! 1 = Some alice_in_the_evening
  /\ (Player.max_hp alice_in_the_evening = 100 + Player.vit alice_in_the_evening * 10
      \/ (Player.max_hp alice_in_the_evening = 100
          /\ Player.vit alice_in_the_evening = 1)).
Proof.
  assert (players (serve Postgres keep bytes started first_day) !! 1 = Some alice_in_the_evening)
    as H1 by (by vm_compute).
  exact (conj H1
    (max_hp_follows_vit_once_trained Postgres keep bytes first_day 1 alice_in_the_evening H1)).
Defined.

Lemma started_stat_points_witness :
  players (serve Postgres keep bytes started first_day) !! 1 = Some alice_in_the_evening
  /\ 0 <= Player.stat_points alice_in_the_evening.
Proof.
  assert (players (serve Postgres keep bytes started first_day) !! 1 = Some alice_in_the_evening)
    as H1 by (by vm_compute).
  exact (conj H1 (started_stat_points Postgres keep bytes first_day 1 alice_in_the_evening H1)).
Defined.

Lemma panel_never_overspends_witness :
  0 <= Player.stat_points alice_player
  /\ 0 <= Pending.str (clicked alice_player
                         [plus stat_str; plus stat_str; minus stat_dex; plus stat_vit;
                          plus stat_vit; plus stat_vit; plus stat_vit; minus stat_str])
  /\ 0 <= Pending.dex (clicked alice_player
                         [plus stat_str; plus stat_str; minus stat_dex; plus stat_vit;
                          plus stat_vit; plus stat_vit; plus stat_vit; minus stat_str])
  /\ 0 <= Pending.vit (clicked alice_player
                         [plus stat_str; plus stat_str; minus stat_dex; plus stat_vit;
                          plus stat_vit; plus stat_vit; plus stat_vit; minus stat_str])
  /\ 0 <= remaining alice_player
            (clicked alice_player
               [plus stat_str; plus stat_str; minus stat_dex; plus stat_vit;
                plus stat_vit; plus stat_vit; plus stat_vit; minus stat_str]).
Proof.
  assert (0 <= Player.stat_points alice_player) as H1 by (cbn; lia).
  exact (conj H1 (panel_never_overspends alice_player _ H1)).
Defined.

Lemma confirmed_training_is_accepted_witness :
  players alice_db !! User.id alice = Some alice_player
  /\ 0 <= Player.stat_points alice_player
  /\ handleConfirm (clicked alice_player [plus stat_str; plus stat_vit; plus stat_vit])
     = Some (TrainBody.mk 1 0 2 3)
  /\ trained_fits Postgres alice_player (TrainBody.mk 1 0 2 3)
       (100 + (Player.vit alice_player + TrainBody.vit (TrainBody.mk 1 0 2 3)) * 10)
     = true
  /\ TrainBody.pointsSpent (TrainBody.mk 1 0 2 3)
     = TrainBody.str (TrainBody.mk 1 0 2 3) + TrainBody.dex (TrainBody.mk 1 0 2 3)
       + TrainBody.vit (TrainBody.mk 1 0 2 3)
  /\ 0 <= TrainBody.str (TrainBody.mk 1 0 2 3)
  /\ 0 <= TrainBody.dex (TrainBody.mk 1 0 2 3)
  /\ 0 <= TrainBody.vit (TrainBody.mk 1 0 2 3)
  /\ 0 < TrainBody.pointsSpent (TrainBody.mk 1 0 2 3)
  /\ exists db1 updated,
       train Postgres alice_db alice (TrainBody.mk 1 0 2 3) 20
       = (db1, Reply 200 (success_player (Some updated)))
       /\ players db1 !! User.id alice = Some updated
       /\ Player.stat_points updated
          = Player.stat_points alice_player - TrainBody.pointsSpent (TrainBody.mk 1 0 2 3)
       /\ 0 <= Player.stat_points updated
       /\ Player.str updated = Player.str alice_player + TrainBody.str (TrainBody.mk 1 0 2 3)
       /\ Player.dex updated = Player.dex alice_player + TrainBody.dex (TrainBody.mk 1 0 2 3)
       /\ Player.vit updated = Player.vit alice_player + TrainBody.vit (TrainBody.mk 1 0 2 3)
       /\ Player.max_hp updated = 100 + Player.vit updated * 10.
Proof.
  assert (players alice_db !! User.id alice = Some alice_player) as H1 by (by vm_compute).
  assert (0 <= Player.stat_points alice_player) as H2 by (cbn; lia).
  assert (handleConfirm (clicked alice_player [plus stat_str; plus stat_vit; plus stat_vit])
          = Some (TrainBody.mk 1 0 2 3)) as H3 by (by vm_compute).
  assert (trained_fits Postgres alice_player (TrainBody.mk 1 0 2 3)
            (100 + (Player.vit alice_player + TrainBody.vit (TrainBody.mk 1 0 2 3)) * 10)
          = true) as H4 by (by vm_compute).
  exact (conj H1 (conj H2 (conj H3 (conj H4
    (confirmed_training_is_accepted Postgres alice_db alice alice_player
       [plus stat_str; plus stat_vit; plus stat_vit] (TrainBody.mk 1 0 2 3) 20
       H1 H2 H3 H4))))).
Defined.

Lemma train_out_of_range_writes_nothing_witness :
  players alice_db !! User.id alice = Some alice_player
  /\ TrainBody.pointsSpent (TrainBody.mk 0 0 300000000 0) <= Player.stat_points alice_player
  /\ trained_fits Postgres alice_player (TrainBody.mk 0 0 300000000 0)
       (100 + (Player.vit alice_player
               + TrainBody.vit (TrainBody.mk 0 0 300000000 0)) * 10)
     = false
  /\ train Postgres alice_db alice (TrainBody.mk 0 0 300000000 0) 20
     = (alice_db, Uncaught OutOfRange)
  /\ snd (train SQLite alice_db alice (TrainBody.mk 0 0 300000000 0) 20)
     <> Uncaught OutOfRange.
Proof.
  assert (players alice_db !! User.id alice = Some alice_player) as H1 by (by vm_compute).
  assert (TrainBody.pointsSpent (TrainBody.mk 0 0 300000000 0)
          <= Player.stat_points alice_player) as H2 by (cbn; lia).
  assert (trained_fits Postgres alice_player (TrainBody.mk 0 0 300000000 0)
            (100 + (Player.vit alice_player
                    + TrainBody.vit (TrainBody.mk 0 0 300000000 0)) * 10)
          = false) as H3 by (by vm_compute).
  exact (conj H1 (conj H2 (conj H3 (conj
    (proj1 (train_out_of_range_writes_nothing alice_db alice
              (TrainBody.mk 0 0 300000000 0) 20 alice_player H1 H2) H3)
    (proj2 (train_out_of_range_writes_nothing alice_db alice
              (TrainBody.mk 0 0 300000000 0) 20 alice_player H1 H2)))))).
Defined.
